(** * LitPKPExecutor: the ERC-7579 executor module of contracts/LitPKPExecutor.sol

    A shallow embedding of the contract: its storage, its three mutating
    entry points (onInstall, onUninstall, executeFromExecutor), its views
    (isModuleInstalled, getPKPInfo, getOperationHash), the packed encoding
    of the operation hash, and the external call made by
    executeFromExecutor, with the callee free to call back into the
    module. *)

From Stdlib Require Import ZArith List Lia Bool.
From Stdlib Require Import Strings.Byte.
From Stdlib Require HexString DecimalString.
From stdpp Require Import base option list gmap.
Import ListNotations.

Open Scope Z_scope.

(** ** Bytes and fixed-width big-endian words *)

Module Bytes.

Definition bytes := list byte.

Definition Z_of_byte (b : byte) : Z := Z.of_N (Byte.to_N b).

Definition byte_of_Z (z : Z) : byte :=
  match Byte.of_N (Z.to_N (z mod 256)) with
  | Some b => b
  | None => x00
  end.

(** [be n x]: the low [n] bytes of [x], most significant first; this is how
    Solidity lays out an unsigned integer of [8 * n] bits. *)
Fixpoint be (n : nat) (x : Z) : bytes :=
  match n with
  | O => []
  | S n' => be n' (x / 256) ++ [byte_of_Z x]
  end.

(** Reading a big-endian word back. *)
Definition be_decode (bs : bytes) : Z :=
  fold_left (fun acc b => acc * 256 + Z_of_byte b) bs 0.

End Bytes.
Import Bytes.

(** ** Data model *)

(** Solidity's [address] (160 bits), [uint256] and [bytes32] are carried as
    integers; the encodings below give them their width. *)
Abbreviation address := Z (only parsing).
Abbreviation uint256 := Z (only parsing).
Abbreviation bytes32 := Z (only parsing).

(** [struct PKPInfo] *)
Record PKPInfo := mkPKPInfo {
  pkpEthAddress : address;
  pkpTokenId : bytes32;
  isInstalled : bool
}.

(** The value every slot of [mapping(address => PKPInfo)] reads before it is
    written and after [delete]. *)
Definition PKPInfo_zero : PKPInfo := mkPKPInfo 0 0 false.

Inductive Event :=
| ModuleInstalled (account pkpAddress : address) (tokenId : bytes32)
| ModuleUninstalled (account pkpAddress : address)
| OperationExecuted (account target : address) (value : uint256) (data : bytes)
| PKPSignatureVerified (account : address) (operationHash : bytes32) (pkpAddress : address).

(** The contract's six errors, the errors of the two imported libraries, and
    the data-less revert of a failed [abi.decode]. *)
Inductive Error :=
| InvalidModule
| InvalidSignature
| ExecutionFailed
| ModuleNotInstalled
| ModuleAlreadyInstalled
| UnauthorizedPKP
| ReentrancyGuardReentrantCall
| ECDSAInvalidSignature
| ECDSAInvalidSignatureLength (len : Z)
| ECDSAInvalidSignatureS (s : bytes32)
| AbiDecodeFailed.

(** What the contract owns on the ledger: the guard word of ReentrancyGuard,
    the two mappings, and the events it has logged.  A revert discards
    changes to all four. *)
Record State := mkState {
  status : Z;
  accountPKPs : gmap Z PKPInfo;
  pkpToAccount : gmap Z Z;
  logs : list Event
}.

Definition MODULE_TYPE : Z := 2.

(** Modelled from the spec: the guard word of the ReentrancyGuard base
    contract (import on line 5, source not in the repository).  The spec asks
    for a gate that is closed before the forwarded call and released only
    after it returns; the two values of the word name "released" and
    "closed". *)
Definition NOT_ENTERED : Z := 1.
Definition ENTERED : Z := 2.

(** The state after deployment: nothing registered, gate released. *)
Definition init_state : State := mkState NOT_ENTERED ∅ ∅ [].

(** Reading a mapping: an absent key reads as the zero value. *)
Definition accountPKPs_at (s : State) (a : address) : PKPInfo :=
  default PKPInfo_zero (accountPKPs s !! a).

Definition pkpToAccount_at (s : State) (a : address) : address :=
  default 0 (pkpToAccount s !! a).

Definition set_status (v : Z) (s : State) : State :=
  mkState v (accountPKPs s) (pkpToAccount s) (logs s).

Definition set_accountPKPs (f : gmap Z PKPInfo -> gmap Z PKPInfo) (s : State) : State :=
  mkState (status s) (f (accountPKPs s)) (pkpToAccount s) (logs s).

Definition set_pkpToAccount (f : gmap Z Z -> gmap Z Z) (s : State) : State :=
  mkState (status s) (accountPKPs s) (f (pkpToAccount s)) (logs s).

Definition add_log (e : Event) (s : State) : State :=
  mkState (status s) (accountPKPs s) (pkpToAccount s) (logs s ++ [e]).

(** ** Execution of contract code: state plus revert *)

Inductive Result (A : Type) :=
| Ok (a : A)
| Revert (e : Error).
Arguments Ok {A} a.
Arguments Revert {A} e.

(** A function body runs on the current state and either finishes with a
    value and a new state, or reverts. *)
Definition M (A : Type) : Type := State -> Result (A * State).

#[global] Instance M_ret : MRet M := fun A a s => Ok (a, s).
#[global] Instance M_bind : MBind M := fun A B f m s =>
  match m s with
  | Ok (a, s') => f a s'
  | Revert e => Revert e
  end.

Definition revert {A} (e : Error) : M A := fun _ => Revert e.
Definition sload : M State := fun s => Ok (s, s).
Definition sstore (f : State -> State) : M unit := fun s => Ok (tt, f s).
Definition emit (e : Event) : M unit := sstore (add_log e).

(** An external call into the contract is a frame of its own: when the body
    reverts, the caller sees the error and the state the frame started in. *)
Definition external {A} (body : M A) (s : State) : Result A * State :=
  match body s with
  | Ok (a, s') => (Ok a, s')
  | Revert e => (Revert e, s)
  end.

(** A low-level [addr.call(...)] made by the contract: the callee's frame
    ends with a success flag and return data; the state changes of a failed
    callee are discarded, and the caller goes on either way. *)
Definition low_level_call (callee : State -> bool * bytes * State) : M (bool * bytes) :=
  fun s =>
    let '(success, returnData, s') := callee s in
    Ok ((success, returnData), if success then s' else s).

(** ** Encodings *)

(** [abi.encodePacked(account, target, value, data, block.chainid, address(this))]:
    addresses take 20 bytes, uint256 takes 32, [bytes] is copied as it is,
    with no length and no padding. *)
Definition encodePacked_operation
    (account target : address) (value : uint256) (data : bytes)
    (chainid : uint256) (this : address) : bytes :=
  be 20 account ++ be 20 target ++ be 32 value ++ data ++ be 32 chainid ++ be 20 this.

(** The string literal of line 135: byte 0x19, "Ethereum Signed Message:",
    a line feed, "32". *)
Definition eth_message_prefix : bytes :=
  [x19; "E"; "t"; "h"; "e"; "r"; "e"; "u"; "m"; " "; "S"; "i"; "g"; "n"; "e"; "d"; " ";
   "M"; "e"; "s"; "s"; "a"; "g"; "e"; ":"; x0a; "3"; "2"]%byte.

(** [abi.encodePacked("\x19Ethereum Signed Message:\n32", operationHash)] *)
Definition encodePacked_prefixed (operationHash : bytes32) : bytes :=
  eth_message_prefix ++ be 32 operationHash.

(** [abi.decode(data, (address, bytes32))]: two 32-byte words; shorter data
    and an address word with bits above the 160th are rejected; bytes after
    the second word are ignored. *)
Definition abi_decode_address_bytes32 (data : bytes) : option (address * bytes32) :=
  if (length data <? 64)%nat then None
  else
    let w0 := be_decode (take 32 data) in
    let w1 := be_decode (take 32 (drop 32 data)) in
    if 2 ^ 160 <=? w0 then None else Some (w0, w1).

(** [abi.encode(pkpEthAddress, pkpTokenId)], what an account passes to onInstall. *)
Definition abi_encode_address_bytes32 (a : address) (b : bytes32) : bytes :=
  be 32 a ++ be 32 b.


(** A pure library call inside a body: its revert is the body's revert. *)
Definition pure_call {A} (r : Result A) : M A :=
  fun s => match r with
           | Ok a => Ok (a, s)
           | Revert e => Revert e
           end.

(** ** The chain environment *)

(** What the contract takes from the chain it runs on: the hash function,
    the signature-recovery precompile (which answers the zero address when
    it cannot recover), [block.chainid] and [address(this)]. *)
Record Env := mkEnv {
  keccak256 : bytes -> bytes32;
  ecrecover : bytes32 -> Z -> bytes32 -> bytes32 -> address;
  chainid : uint256;
  this : address
}.

(** ** Imported library code *)

Module ECDSA.

(** Half the order of secp256k1: signatures with a larger [s] are refused. *)
Definition HALF_ORDER : Z :=
  0x7FFFFFFFFFFFFFFFFFFFFFFFFFFFFFFF5D576E7357A4501DDFE92F46681B20A0.

(** Modelled from the spec: [ECDSA.recover(hash, signature)] of the
    OpenZeppelin library imported on line 4, whose source is not in the
    repository.  The spec names the ways recovery fails: wrong length, [s]
    out of range, invalid recovery id (the precompile then answers the zero
    address).  How a failure is reported is the library's own: the function
    returns an address, so it can only revert, and it reverts with an error
    of its own for each case.  A signature is 65 bytes: [r], [s], then [v]. *)
Definition recover (env : Env) (hash : bytes32) (signature : bytes) : Result address :=
  if (length signature =? 65)%nat then
    let r := be_decode (take 32 signature) in
    let s := be_decode (take 32 (drop 32 signature)) in
    let v := be_decode (take 1 (drop 64 signature)) in
    if HALF_ORDER <? s then Revert (ECDSAInvalidSignatureS s)
    else
      let signer := ecrecover env hash v r s in
      if signer =? 0 then Revert ECDSAInvalidSignature
      else Ok signer
  else Revert (ECDSAInvalidSignatureLength (Z.of_nat (length signature))).

End ECDSA.

(** Modelled from the spec: the [nonReentrant] modifier of ReentrancyGuard
    (import on line 5, source not in the repository).  A call that finds the
    gate closed fails at once; otherwise the gate is closed, the body runs,
    and the gate is released after the body returns. *)
Definition nonReentrant {A} (body : M A) : M A :=
  s ← sload;
  if status s =? ENTERED then revert ReentrancyGuardReentrantCall
  else
    sstore (set_status ENTERED);;
    result ← body;
    sstore (set_status NOT_ENTERED);;
    mret result.

(** ** The contract *)

(** [function onInstall(bytes calldata data) external] *)
Definition onInstall (msg_sender : address) (data : bytes) : M unit :=
  match abi_decode_address_bytes32 data with
  | None => revert AbiDecodeFailed
  | Some (pkpEthAddress, pkpTokenId) =>
      s ← sload;
      if isInstalled (accountPKPs_at s msg_sender) then revert ModuleAlreadyInstalled
      else
        s ← sload;
        if negb (pkpToAccount_at s pkpEthAddress =? 0) then revert UnauthorizedPKP
        else
          sstore (set_accountPKPs <[msg_sender := mkPKPInfo pkpEthAddress pkpTokenId true]>);;
          sstore (set_pkpToAccount <[pkpEthAddress := msg_sender]>);;
          emit (ModuleInstalled msg_sender pkpEthAddress pkpTokenId)
  end.

(** [function onUninstall(bytes calldata) external] *)
Definition onUninstall (msg_sender : address) (data : bytes) : M unit :=
  s ← sload;
  if negb (isInstalled (accountPKPs_at s msg_sender)) then revert ModuleNotInstalled
  else
    s ← sload;
    let pkpEthAddress := pkpEthAddress (accountPKPs_at s msg_sender) in
    sstore (set_accountPKPs (delete msg_sender));;
    sstore (set_pkpToAccount (delete pkpEthAddress));;
    emit (ModuleUninstalled msg_sender pkpEthAddress).

(** [function isModuleInstalled(address account, uint256 moduleTypeId) external view] *)
Definition isModuleInstalled (account : address) (moduleTypeId : uint256) : M bool :=
  if negb (moduleTypeId =? MODULE_TYPE) then mret false
  else
    s ← sload;
    mret (isInstalled (accountPKPs_at s account)).

(** [function getPKPInfo(address account) external view] *)
Definition getPKPInfo (account : address) : M (address * bytes32 * bool) :=
  s ← sload;
  let pkpInfo := accountPKPs_at s account in
  mret (pkpEthAddress pkpInfo, pkpTokenId pkpInfo, isInstalled pkpInfo).

Section LitPKPExecutor.

Variable env : Env.

(** The two hashes of lines 123-135: the operation hash, and the hash of
    the prefixed message that the signer signs. *)
Definition operationHash_of (msg_sender target : address) (value : uint256) (data : bytes)
  : bytes32 :=
  keccak256 env (encodePacked_operation msg_sender target value data (chainid env) (this env)).

Definition digest_of (msg_sender target : address) (value : uint256) (data : bytes)
  : bytes32 :=
  keccak256 env (encodePacked_prefixed (operationHash_of msg_sender target value data)).

(** [function getOperationHash(address account, address target, uint256 value,
    bytes calldata data) external view] *)
Definition getOperationHash
    (account target : address) (value : uint256) (data : bytes) : M bytes32 :=
  mret (keccak256 env
          (encodePacked_operation account target value data (chainid env) (this env))).

(** [function executeFromExecutor(address target, uint256 value,
    bytes calldata data, bytes calldata pkpSignature) external nonReentrant].
    [call] is the chain's answer to [target.call{value: value}(data)]. *)
Definition executeFromExecutor
    (call : address -> uint256 -> bytes -> M (bool * bytes))
    (msg_sender target : address) (value : uint256) (data pkpSignature : bytes) : M bytes :=
  nonReentrant (
    s ← sload;
    if negb (isInstalled (accountPKPs_at s msg_sender)) then revert ModuleNotInstalled
    else
      let operationHash :=
        keccak256 env
          (encodePacked_operation msg_sender target value data (chainid env) (this env)) in
      let ethSignedMessageHash := keccak256 env (encodePacked_prefixed operationHash) in
      recoveredSigner ← pure_call (ECDSA.recover env ethSignedMessageHash pkpSignature);
      s ← sload;
      if negb (recoveredSigner =? pkpEthAddress (accountPKPs_at s msg_sender))
      then revert InvalidSignature
      else
        s ← sload;
        emit (PKPSignatureVerified msg_sender operationHash
                (pkpEthAddress (accountPKPs_at s msg_sender)));;
        '(success, returnData) ← call target value data;
        if negb success then revert ExecutionFailed
        else
          emit (OperationExecuted msg_sender target value data);;
          mret returnData).

(** ** The code on the other side of the forwarded call

    The target of [target.call] is arbitrary code.  All the contract can
    learn of it is a success flag and return data; all it can do to the
    contract is call its entry points, as itself or through further
    contracts, and read its views.  An [Action] is one run of such code: a
    tree of calls into the module, each followed by what the code does with
    the answer. *)
Inductive Action :=
| Return (success : bool) (returnData : bytes)
    (* the frame ends: [success = false] is a revert of the external code *)
| CallOnInstall (sender : address) (data : bytes) (k : Result unit -> Action)
| CallOnUninstall (sender : address) (data : bytes) (k : Result unit -> Action)
| CallExecute (sender target : address) (value : uint256) (data pkpSignature : bytes)
    (callee : Action) (k : Result bytes -> Action)
    (* a call of executeFromExecutor; [callee] is what [target] would do *)
| CallViews (k : (address -> PKPInfo) -> (address -> address) -> Action)
    (* reads through getPKPInfo, isModuleInstalled and the public getters *)
| Subcall (body : Action) (k : bool * bytes -> Action).
    (* a nested frame of external code, whose failure undoes what it did *)

(** Running external code against the contract's state. *)
Fixpoint run (a : Action) (s : State) : bool * bytes * State :=
  match a with
  | Return success returnData => (success, returnData, s)
  | CallOnInstall sender data k =>
      let '(r, s') := external (onInstall sender data) s in
      run (k r) s'
  | CallOnUninstall sender data k =>
      let '(r, s') := external (onUninstall sender data) s in
      run (k r) s'
  | CallExecute sender target value data pkpSignature callee k =>
      let '(r, s') :=
        external
          (executeFromExecutor (fun _ _ _ => low_level_call (run callee))
             sender target value data pkpSignature) s in
      run (k r) s'
  | CallViews k => run (k (accountPKPs_at s) (pkpToAccount_at s)) s
  | Subcall body k =>
      let '(success, returnData, s') := run body s in
      run (k (success, returnData)) (if success then s' else s)
  end.

(** The chain's answer to [target.call] when the target does [callee]. *)
Definition forwarded (callee : Action) : address -> uint256 -> bytes -> M (bool * bytes) :=
  fun _ _ _ => low_level_call (run callee).

(** A transaction's call into the module.  For executeFromExecutor,
    [callee] is what the target does when the call is forwarded to it. *)
Inductive Call :=
| OnInstall (sender : address) (data : bytes)
| OnUninstall (sender : address) (data : bytes)
| ExecuteFromExecutor (sender target : address) (value : uint256)
    (data pkpSignature : bytes) (callee : Action).

(** The outcome an outside caller observes. *)
Inductive Outcome :=
| Success (returnData : bytes)
| Failure (e : Error).

Definition outcome_of {A} (f : A -> bytes) (r : Result A) : Outcome :=
  match r with
  | Ok a => Success (f a)
  | Revert e => Failure e
  end.

Definition invoke (c : Call) (s : State) : Outcome * State :=
  match c with
  | OnInstall sender data =>
      let '(r, s') := external (onInstall sender data) s in
      (outcome_of (fun _ => []) r, s')
  | OnUninstall sender data =>
      let '(r, s') := external (onUninstall sender data) s in
      (outcome_of (fun _ => []) r, s')
  | ExecuteFromExecutor sender target value data pkpSignature callee =>
      let '(r, s') :=
        external
          (executeFromExecutor (forwarded callee) sender target value data pkpSignature) s in
      (outcome_of (fun ret => ret) r, s')
  end.

(** The state after a sequence of transactions. *)
Definition run_calls (cs : list Call) (s : State) : State :=
  fold_left (fun s c => snd (invoke c s)) cs s.

(** The state in which the forwarded call starts, and the state in which a
    successful executeFromExecutor ends. *)
Definition before_call (s : State) (msg_sender target : address) (value : uint256)
    (data : bytes) : State :=
  add_log (PKPSignatureVerified msg_sender (operationHash_of msg_sender target value data)
             (pkpEthAddress (accountPKPs_at s msg_sender)))
    (set_status ENTERED s).

End LitPKPExecutor.

Definition after_call (s' : State) (msg_sender target : address) (value : uint256)
    (data : bytes) : State :=
  set_status NOT_ENTERED (add_log (OperationExecuted msg_sender target value data) s').

(** The states a successful onInstall and a successful onUninstall leave. *)
Definition installed_state (s : State) (A pkp : address) (tokenId : bytes32) : State :=
  add_log (ModuleInstalled A pkp tokenId)
    (set_pkpToAccount <[pkp := A]>
       (set_accountPKPs <[A := mkPKPInfo pkp tokenId true]> s)).

Definition uninstalled_state (s : State) (A : address) : State :=
  add_log (ModuleUninstalled A (pkpEthAddress (accountPKPs_at s A)))
    (set_pkpToAccount (delete (pkpEthAddress (accountPKPs_at s A)))
       (set_accountPKPs (delete A) s)).

(** ** Re-entry removed

    [no_reentry a] is [a] with every attempt to call executeFromExecutor
    taken out: the code goes on as it does when the attempt is answered with
    the guard's error, and the attempt itself is never made. *)
Fixpoint no_reentry (a : Action) : Action :=
  match a with
  | Return success returnData => Return success returnData
  | CallOnInstall sender data k => CallOnInstall sender data (fun r => no_reentry (k r))
  | CallOnUninstall sender data k => CallOnUninstall sender data (fun r => no_reentry (k r))
  | CallExecute _ _ _ _ _ _ k => no_reentry (k (Revert ReentrancyGuardReentrantCall))
  | CallViews k => CallViews (fun f g => no_reentry (k f g))
  | Subcall body k => Subcall (no_reentry body) (fun r => no_reentry (k r))
  end.

(** ** Who calls

    The zero address is the value [pkpToAccount] holds for "nobody", and no
    account or contract calls from it: [msg.sender] is never zero.  These
    predicates say that every call in a run comes from a non-zero address. *)
Inductive senders_nonzero : Action -> Prop :=
| snz_Return success returnData : senders_nonzero (Return success returnData)
| snz_CallOnInstall sender data k :
    sender <> 0 -> (forall r, senders_nonzero (k r)) ->
    senders_nonzero (CallOnInstall sender data k)
| snz_CallOnUninstall sender data k :
    sender <> 0 -> (forall r, senders_nonzero (k r)) ->
    senders_nonzero (CallOnUninstall sender data k)
| snz_CallExecute sender target value data pkpSignature callee k :
    sender <> 0 -> senders_nonzero callee -> (forall r, senders_nonzero (k r)) ->
    senders_nonzero (CallExecute sender target value data pkpSignature callee k)
| snz_CallViews k :
    (forall f g, senders_nonzero (k f g)) -> senders_nonzero (CallViews k)
| snz_Subcall body k :
    senders_nonzero body -> (forall r, senders_nonzero (k r)) ->
    senders_nonzero (Subcall body k).

Definition call_senders_nonzero (c : Call) : Prop :=
  match c with
  | OnInstall sender _ => sender <> 0
  | OnUninstall sender _ => sender <> 0
  | ExecuteFromExecutor sender _ _ _ _ callee => sender <> 0 /\ senders_nonzero callee
  end.

(** ** The consistency of the two mappings *)

(** Every installed account is the one its signer address points to. *)
Definition forward_consistent (s : State) : Prop :=
  forall A, isInstalled (accountPKPs_at s A) = true ->
            pkpToAccount_at s (pkpEthAddress (accountPKPs_at s A)) = A.

(** Every claimed signer address points to an installed account that
    records it. *)
Definition backward_consistent (s : State) : Prop :=
  forall S A, pkpToAccount_at s S = A -> A <> 0 ->
              isInstalled (accountPKPs_at s A) = true /\
              pkpEthAddress (accountPKPs_at s A) = S.

(** No two installed accounts record the same signer address. *)
Definition signers_distinct (s : State) : Prop :=
  forall A B, isInstalled (accountPKPs_at s A) = true ->
              isInstalled (accountPKPs_at s B) = true ->
              pkpEthAddress (accountPKPs_at s A) = pkpEthAddress (accountPKPs_at s B) ->
              A = B.

Definition consistent (s : State) : Prop :=
  forward_consistent s /\ backward_consistent s /\
  isInstalled (accountPKPs_at s 0) = false.

(** ** What has happened to a registration

    [registration_kept A s s']: from [s] to [s'] the event log has only
    grown, and a registration that [A] held in [s] is either still the one
    [A] holds in [s'], or the new events tell of an uninstall by [A]. *)
Definition registration_kept (A : address) (s s' : State) : Prop :=
  exists new,
    logs s' = logs s ++ new /\
    (isInstalled (accountPKPs_at s A) = true ->
     accountPKPs_at s' A = accountPKPs_at s A \/
     exists pkp, In (ModuleUninstalled A pkp) new).

(** The events logged since the log had [n] entries. *)
Definition logs_since (n : nat) (s : State) : list Event := drop n (logs s).

(** ** A demonstration chain

    A small environment to run the contract on concrete inputs: a hash that
    reads its input as a number, and a recovery function for the matching
    toy signatures, in which [r] carries the signer's address added to the
    hash.  Nothing is proved from these two; the theorems hold for every
    environment. *)
Module Demo.

Definition keccak (bs : bytes) : bytes32 := be_decode bs mod 2 ^ 256.

Definition recover_precompile (hash : bytes32) (v : Z) (r s : bytes32) : address :=
  if (v =? 27) || (v =? 28) then (r - hash) mod 2 ^ 160 else 0.

Definition env : Env := mkEnv keccak recover_precompile 84532 0xE0EC.

(** The signature of [signer] over [hash] on the demonstration chain. *)
Definition sign (signer : address) (hash : bytes32) : bytes :=
  be 32 ((hash + signer) mod 2 ^ 256) ++ be 32 1 ++ [x1b].

Definition alice : address := 0xA11CE.
Definition bob : address := 0xB0B.
Definition target : address := 0x7A26E7.
Definition pkp : address := 0x5160.
Definition other_pkp : address := 0x5161.

(** [alice] has installed the module with signer [pkp]. *)
Definition alice_installed : State :=
  run_calls env [OnInstall alice (abi_encode_address_bytes32 pkp 7)] init_state.

(** A target that, when called, tries to call executeFromExecutor again as
    [caller], and returns one byte telling how the attempt ended: 1 for
    success, 2 for the guard's error, 3 for ModuleNotInstalled, 0 for
    anything else. *)
Definition reenter_as (caller : address) (pkpSignature : bytes) : Action :=
  CallExecute caller target 0 [] pkpSignature (Return true [])
    (fun r => match r with
              | Ok _ => Return true [x01]
              | Revert ReentrancyGuardReentrantCall => Return true [x02]
              | Revert ModuleNotInstalled => Return true [x03]
              | Revert _ => Return true [x00]
              end).

(** The signature of the registered signer over alice's empty call to the
    target, and the same from a signer that is not registered. *)
Definition good_signature : bytes :=
  sign pkp (digest_of env alice target 0 []).

Definition foreign_signature : bytes :=
  sign other_pkp (digest_of env alice target 0 []).

(** The state in which the forwarded call of alice's executeFromExecutor runs. *)
Definition inside_alice_call : State :=
  before_call env alice_installed alice target 0 [].

End Demo.

(** ** More to say about states and logs *)

(** A record that is not installed holds nothing: this is what getPKPInfo
    answers for an account that never installed or has uninstalled. *)
Definition absent_records_zero (s : State) : Prop :=
  forall A, isInstalled (accountPKPs_at s A) = false -> accountPKPs_at s A = PKPInfo_zero.

(** In a log, every OperationExecuted comes after a PKPSignatureVerified for
    the same account and the hash of the same operation. *)
Definition verified_before_executed (env : Env) (l : list Event) : Prop :=
  forall before after account target value data,
    l = before ++ OperationExecuted account target value data :: after ->
    exists pkpAddress,
      In (PKPSignatureVerified account (operationHash_of env account target value data)
            pkpAddress) before.

(** Reading an account's registration off the log: a ModuleInstalled event
    of the account sets it, a ModuleUninstalled event of the account clears
    it, and no other event changes it. *)
Definition registration_after (A : address) (info : PKPInfo) (e : Event) : PKPInfo :=
  match e with
  | ModuleInstalled account pkpAddress tokenId =>
      if decide (account = A) then mkPKPInfo pkpAddress tokenId true else info
  | ModuleUninstalled account _ =>
      if decide (account = A) then PKPInfo_zero else info
  | _ => info
  end.

Definition registration_from_log (A : address) (l : list Event) : PKPInfo :=
  fold_left (registration_after A) l PKPInfo_zero.

(** External code that makes no onInstall and no onUninstall call as [A]
    (it may call executeFromExecutor as anyone, [A] included). *)
Inductive no_registry_call_as (A : address) : Action -> Prop :=
| nrc_Return success returnData : no_registry_call_as A (Return success returnData)
| nrc_CallOnInstall sender data k :
    sender <> A -> (forall r, no_registry_call_as A (k r)) ->
    no_registry_call_as A (CallOnInstall sender data k)
| nrc_CallOnUninstall sender data k :
    sender <> A -> (forall r, no_registry_call_as A (k r)) ->
    no_registry_call_as A (CallOnUninstall sender data k)
| nrc_CallExecute sender target value data pkpSignature callee k :
    no_registry_call_as A callee -> (forall r, no_registry_call_as A (k r)) ->
    no_registry_call_as A (CallExecute sender target value data pkpSignature callee k)
| nrc_CallViews k :
    (forall f g, no_registry_call_as A (k f g)) -> no_registry_call_as A (CallViews k)
| nrc_Subcall body k :
    no_registry_call_as A body -> (forall r, no_registry_call_as A (k r)) ->
    no_registry_call_as A (Subcall body k).

Definition not_registry_call_as (A : address) (c : Call) : Prop :=
  match c with
  | OnInstall sender _ => sender <> A
  | OnUninstall sender _ => sender <> A
  | ExecuteFromExecutor _ _ _ _ _ callee => no_registry_call_as A callee
  end.

(** The two mappings read the same in two states. *)
Definition same_registry (s s' : State) : Prop :=
  (forall A, accountPKPs_at s' A = accountPKPs_at s A) /\
  (forall S, pkpToAccount_at s' S = pkpToAccount_at s S).

(** ** The signer's side: lit-pkp-executor.ts

    The two functions that turn what the signing network answers (r and s as
    hexadecimal strings, with or without the 0x prefix, and a recovery id)
    into the signature string handed to executeFromExecutor. *)
Module Signer.
Import Stdlib.Strings.String.
Local Open Scope string_scope.

Record SigningResult := mkSigningResult {
  r : string;
  s : string;
  recid : N
}.

(** [n.toString(16)] of a non-negative integer: lower-case digits, no prefix. *)
Definition toString16 (n : N) : string :=
  match n with
  | N0 => "0"
  | Npos p => HexString.Raw.of_pos p ""
  end.

(** A non-negative integer printed by a template literal: decimal digits. *)
Definition toString10 (n : N) : string :=
  DecimalString.NilEmpty.string_of_uint (N.to_uint n).

(** [str.slice(2)] *)
Fixpoint slice (n : nat) (str : string) : string :=
  match n, str with
  | O, _ => str
  | S _, EmptyString => EmptyString
  | S n', String _ rest => slice n' rest
  end.

(** [str.padStart(2, '0')] *)
Definition padStart2 (str : string) : string :=
  match length str with
  | O => "00" ++ str
  | S O => "0" ++ str
  | _ => str
  end.

(** [str.startsWith('0x')] *)
Definition startsWith0x (str : string) : bool := prefix "0x" str.

(** [private formatPKPSignature(signingResult: any): string] *)
Definition formatPKPSignature (signingResult : SigningResult) : string :=
  let rHex := if startsWith0x (r signingResult) then r signingResult
              else "0x" ++ r signingResult in
  let sHex := if startsWith0x (s signingResult) then s signingResult
              else "0x" ++ s signingResult in
  let v := (recid signingResult + 27)%N in
  let vHex := padStart2 (toString16 v) in
  rHex ++ slice 2 sHex ++ vHex.

(** [private combineSignatureShares(signatureShare: any): string] *)
Definition combineSignatureShares (signatureShare : SigningResult) : string :=
  let rHex := if startsWith0x (r signatureShare) then r signatureShare
              else "0x" ++ r signatureShare in
  let sHex := if startsWith0x (s signatureShare) then s signatureShare
              else "0x" ++ s signatureShare in
  let vHex := "0" ++ toString10 (recid signatureShare + 27)%N in
  rHex ++ slice 2 sHex ++ vHex.

(** A hexadecimal string without its 0x prefix, if it has one. *)
Definition digits (str : string) : string :=
  if startsWith0x str then slice 2 str else str.

End Signer.

(** * Properties *)

(** ** Big-endian words *)

Section BytesFacts.

Lemma Z_of_byte_range b : 0 <= Z_of_byte b < 256.
Proof.
  unfold Z_of_byte. pose proof (Byte.to_N_bounded b) as Hb.
  split; [apply N2Z.is_nonneg|].
  apply (Z.le_lt_trans _ (Z.of_N 255)); [apply N2Z.inj_le; exact Hb | reflexivity].
Qed.

Lemma Z_of_byte_of_Z z : Z_of_byte (byte_of_Z z) = z mod 256.
Proof.
  unfold byte_of_Z, Z_of_byte.
  assert (Hr : 0 <= z mod 256 < 256) by (apply Z.mod_pos_bound; lia).
  destruct (Byte.of_N (Z.to_N (z mod 256))) as [b|] eqn:E.
  - apply Byte.to_of_N in E. rewrite E. rewrite Z2N.id; lia.
  - apply Byte.of_N_None_iff in E.
    apply N2Z.inj_lt in E. rewrite Z2N.id in E by lia.
    change (Z.of_N 255) with 255 in E. lia.
Qed.

Lemma length_be n x : length (be n x) = n.
Proof.
  revert x. induction n as [|n IH]; intros x; simpl; [reflexivity|].
  rewrite length_app, IH. simpl. lia.
Qed.

Lemma be_decode_snoc bs b : be_decode (bs ++ [b]) = be_decode bs * 256 + Z_of_byte b.
Proof. unfold be_decode. rewrite fold_left_app. reflexivity. Qed.

Lemma be_decode_be n x :
  0 <= x < 2 ^ (8 * Z.of_nat n) -> be_decode (be n x) = x.
Proof.
  revert x. induction n as [|n IH]; intros x Hx.
  - simpl in *. change (2 ^ (8 * 0)) with 1 in Hx. unfold be_decode. simpl. lia.
  - cbn [be]. rewrite be_decode_snoc, Z_of_byte_of_Z, IH.
    + pose proof (Z.div_mod x 256). lia.
    + replace (8 * Z.of_nat (S n)) with (8 + 8 * Z.of_nat n) in Hx by lia.
      rewrite Z.pow_add_r in Hx by lia. change (2 ^ 8) with 256 in Hx.
      split; [apply Z.div_pos; lia|].
      apply Z.div_lt_upper_bound; lia.
Qed.

Lemma be_decode_range bs : 0 <= be_decode bs < 2 ^ (8 * Z.of_nat (length bs)).
Proof.
  induction bs as [|b bs IH] using rev_ind.
  - unfold be_decode. simpl. lia.
  - rewrite be_decode_snoc, length_app. simpl length.
    replace (8 * Z.of_nat (length bs + 1)) with (8 * Z.of_nat (length bs) + 8) by lia.
    rewrite Z.pow_add_r by lia. change (2 ^ 8) with 256.
    pose proof (Z_of_byte_range b). nia.
Qed.

Lemma be_inj n x y :
  0 <= x < 2 ^ (8 * Z.of_nat n) -> 0 <= y < 2 ^ (8 * Z.of_nat n) ->
  be n x = be n y -> x = y.
Proof.
  intros Hx Hy E. rewrite <- (be_decode_be n x Hx), <- (be_decode_be n y Hy).
  now rewrite E.
Qed.

(** Two concatenations whose heads have the same length agree piecewise. *)
Lemma app_split_same_length (a a' b b' : bytes) :
  length a = length a' -> a ++ b = a' ++ b' -> a = a' /\ b = b'.
Proof.
  revert a'. induction a as [|x a IH]; intros [|x' a'] Hl E; simpl in *; try discriminate.
  - auto.
  - injection E as -> E. destruct (IH a' ltac:(lia) E) as [-> ->]. auto.
Qed.

(** The same from the right: tails of equal length. *)
Lemma app_split_same_tail (a a' b b' : bytes) :
  length b = length b' -> a ++ b = a' ++ b' -> a = a' /\ b = b'.
Proof.
  intros Hl E.
  assert (Hla : length a = length a').
  { apply (f_equal (@length byte)) in E. rewrite !length_app in E. lia. }
  exact (app_split_same_length a a' b b' Hla E).
Qed.

Lemma abi_decode_encode a b :
  0 <= a < 2 ^ 160 -> 0 <= b < 2 ^ 256 ->
  abi_decode_address_bytes32 (abi_encode_address_bytes32 a b) = Some (a, b).
Proof.
  intros Ha Hb. unfold abi_decode_address_bytes32, abi_encode_address_bytes32.
  rewrite length_app, !length_be. cbn [Nat.add Nat.ltb Nat.leb].
  rewrite take_app_length' by (now rewrite length_be).
  rewrite drop_app_length' by (now rewrite length_be).
  rewrite take_ge by (rewrite length_be; lia).
  rewrite !be_decode_be by (change (2 ^ (8 * Z.of_nat 32)) with (2 ^ 256); lia).
  destruct (2 ^ 160 <=? a) eqn:E; [apply Z.leb_le in E; lia | reflexivity].
Qed.

End BytesFacts.

Section Properties.

Variable env : Env.

(** ** What each entry point computes *)

Ltac unfold_M :=
  unfold nonReentrant, external, low_level_call, pure_call, emit, sstore, sload, revert,
    mbind, M_bind, mret, M_ret in *.

Lemma external_onInstall sender data s :
  external (onInstall sender data) s =
  match abi_decode_address_bytes32 data with
  | None => (Revert AbiDecodeFailed, s)
  | Some (pkp, tokenId) =>
      if isInstalled (accountPKPs_at s sender) then (Revert ModuleAlreadyInstalled, s)
      else if negb (pkpToAccount_at s pkp =? 0) then (Revert UnauthorizedPKP, s)
      else (Ok tt, installed_state s sender pkp tokenId)
  end.
Proof.
  unfold onInstall.
  destruct (abi_decode_address_bytes32 data) as [[pkp tokenId]|]; [|reflexivity].
  unfold_M. destruct (isInstalled (accountPKPs_at s sender)); [reflexivity|].
  destruct (pkpToAccount_at s pkp =? 0); reflexivity.
Qed.

Lemma external_onUninstall sender data s :
  external (onUninstall sender data) s =
  if negb (isInstalled (accountPKPs_at s sender)) then (Revert ModuleNotInstalled, s)
  else (Ok tt, uninstalled_state s sender).
Proof.
  unfold onUninstall. unfold_M.
  destruct (isInstalled (accountPKPs_at s sender)); reflexivity.
Qed.

Lemma external_execute callee sender target value data pkpSignature s :
  external (executeFromExecutor env (forwarded env callee)
              sender target value data pkpSignature) s =
  if status s =? ENTERED then (Revert ReentrancyGuardReentrantCall, s)
  else if negb (isInstalled (accountPKPs_at s sender)) then (Revert ModuleNotInstalled, s)
  else
    match ECDSA.recover env (digest_of env sender target value data) pkpSignature with
    | Revert e => (Revert e, s)
    | Ok recoveredSigner =>
        if negb (recoveredSigner =? pkpEthAddress (accountPKPs_at s sender))
        then (Revert InvalidSignature, s)
        else
          let '(success, returnData, s1) :=
            run env callee (before_call env s sender target value data) in
          if success then (Ok returnData, after_call s1 sender target value data)
          else (Revert ExecutionFailed, s)
    end.
Proof.
  unfold executeFromExecutor, forwarded, digest_of, operationHash_of, before_call, after_call.
  unfold_M. destruct (status s =? ENTERED); [reflexivity|].
  change (accountPKPs_at (set_status ENTERED s) sender) with (accountPKPs_at s sender).
  destruct (isInstalled (accountPKPs_at s sender)); [|reflexivity]. cbn [negb].
  destruct (ECDSA.recover env _ pkpSignature) as [a|e]; [|reflexivity].
  change (accountPKPs_at (set_status ENTERED s) sender) with (accountPKPs_at s sender).
  destruct (a =? _); [|reflexivity]. cbn [negb].
  change (accountPKPs_at (set_status ENTERED s) sender) with (accountPKPs_at s sender).
  unfold operationHash_of.
  match goal with |- context [run env callee ?s0] =>
    destruct (run env callee s0) as [[success returnData] s1] end.
  destruct success; reflexivity.
Qed.

(** The guard comes first: with the gate closed, nothing else is looked at. *)
Lemma execute_guard_closed call sender target value data pkpSignature s :
  status s = ENTERED ->
  external (executeFromExecutor env call sender target value data pkpSignature) s =
  (Revert ReentrancyGuardReentrantCall, s).
Proof.
  intros Hs. unfold executeFromExecutor. unfold_M.
  replace (status s =? ENTERED) with true by (symmetry; now apply Z.eqb_eq).
  reflexivity.
Qed.

Lemma run_CallOnInstall sender data k s :
  run env (CallOnInstall sender data k) s =
  run env (k (external (onInstall sender data) s).1) (external (onInstall sender data) s).2.
Proof. cbn [run]. now destruct (external _ s). Qed.

Lemma run_CallOnUninstall sender data k s :
  run env (CallOnUninstall sender data k) s =
  run env (k (external (onUninstall sender data) s).1) (external (onUninstall sender data) s).2.
Proof. cbn [run]. now destruct (external _ s). Qed.

Lemma run_CallExecute sender target value data pkpSignature callee k s :
  run env (CallExecute sender target value data pkpSignature callee k) s =
  let r := external (executeFromExecutor env (forwarded env callee)
                       sender target value data pkpSignature) s in
  run env (k r.1) r.2.
Proof. cbn [run]. unfold forwarded. now destruct (external _ s). Qed.

Lemma run_Subcall body k s :
  run env (Subcall body k) s =
  let r := run env body s in
  run env (k (r.1.1, r.1.2)) (if r.1.1 then r.2 else s).
Proof. cbn [run]. now destruct (run env body s) as [[ok ret] s1]. Qed.

(** A call of executeFromExecutor either reverts, leaving the state of its
    caller's frame as it was, or the guard was open, the forwarded call
    succeeded, and the state is the callee's, with the second event and the
    guard released. *)
Lemma external_execute_cases callee sender target value data pkpSignature s :
  let r := external (executeFromExecutor env (forwarded env callee)
                       sender target value data pkpSignature) s in
  (exists e, r = (Revert e, s)) \/
  (exists returnData s1,
      (status s =? ENTERED) = false /\
      isInstalled (accountPKPs_at s sender) = true /\
      run env callee (before_call env s sender target value data) = (true, returnData, s1) /\
      r = (Ok returnData, after_call s1 sender target value data)).
Proof.
  cbv zeta. rewrite external_execute.
  destruct (status s =? ENTERED) eqn:Hst; [left; eauto|].
  destruct (isInstalled (accountPKPs_at s sender)) eqn:Hin; cbn [negb]; [|left; eauto].
  destruct (ECDSA.recover env _ pkpSignature) as [a|e]; [|left; eauto].
  destruct (negb _); [left; eauto|].
  destruct (run env callee _) as [[success returnData] s1] eqn:Hrun.
  destruct success; [|left; eauto].
  right. exists returnData, s1. auto.
Qed.

(** ** Reading the mappings after a write *)

Lemma installed_state_accountPKPs s A pkp tokenId X :
  accountPKPs_at (installed_state s A pkp tokenId) X =
  if decide (A = X) then mkPKPInfo pkp tokenId true else accountPKPs_at s X.
Proof.
  unfold accountPKPs_at, installed_state. cbn [accountPKPs add_log set_pkpToAccount set_accountPKPs].
  rewrite lookup_insert. destruct (decide (A = X)); reflexivity.
Qed.

Lemma installed_state_pkpToAccount s A pkp tokenId Y :
  pkpToAccount_at (installed_state s A pkp tokenId) Y =
  if decide (pkp = Y) then A else pkpToAccount_at s Y.
Proof.
  unfold pkpToAccount_at, installed_state. cbn [pkpToAccount add_log set_pkpToAccount set_accountPKPs].
  rewrite lookup_insert. destruct (decide (pkp = Y)); reflexivity.
Qed.

Lemma uninstalled_state_accountPKPs s A X :
  accountPKPs_at (uninstalled_state s A) X =
  if decide (A = X) then PKPInfo_zero else accountPKPs_at s X.
Proof.
  unfold accountPKPs_at at 1. unfold uninstalled_state.
  cbn [accountPKPs add_log set_pkpToAccount set_accountPKPs].
  rewrite lookup_delete. destruct (decide (A = X)); reflexivity.
Qed.

Lemma uninstalled_state_pkpToAccount s A Y :
  pkpToAccount_at (uninstalled_state s A) Y =
  if decide (pkpEthAddress (accountPKPs_at s A) = Y) then 0 else pkpToAccount_at s Y.
Proof.
  unfold pkpToAccount_at, uninstalled_state.
  cbn [pkpToAccount add_log set_pkpToAccount set_accountPKPs].
  rewrite lookup_delete. destruct (decide (_ = Y)); reflexivity.
Qed.

(** ** The guard word along a run of external code *)

Lemma external_onInstall_status sender data s :
  status (external (onInstall sender data) s).2 = status s.
Proof.
  rewrite external_onInstall.
  destruct (abi_decode_address_bytes32 data) as [[pkp tokenId]|]; [|reflexivity].
  destruct (isInstalled _); [reflexivity|]. destruct (negb _); reflexivity.
Qed.

Lemma external_onUninstall_status sender data s :
  status (external (onUninstall sender data) s).2 = status s.
Proof. rewrite external_onUninstall. destruct (negb _); reflexivity. Qed.

Lemma run_status_entered a : forall s,
  status s = ENTERED -> status (run env a s).2 = ENTERED.
Proof.
  induction a as [ok ret|sender data k IH|sender data k IH
                 |sender target value data sig callee IHc k IH|k IH|body IHb k IH];
    intros s Hs.
  - exact Hs.
  - rewrite run_CallOnInstall. apply IH. now rewrite external_onInstall_status.
  - rewrite run_CallOnUninstall. apply IH. now rewrite external_onUninstall_status.
  - rewrite run_CallExecute. cbv zeta.
    rewrite (execute_guard_closed _ _ _ _ _ _ _ Hs). now apply IH.
  - cbn [run]. now apply IH.
  - rewrite run_Subcall. cbv zeta. specialize (IHb s Hs).
    apply IH. destruct (run env body s).1.1; assumption.
Qed.

Lemma run_status_not_entered a : forall s,
  status s = NOT_ENTERED -> status (run env a s).2 = NOT_ENTERED.
Proof.
  induction a as [ok ret|sender data k IH|sender data k IH
                 |sender target value data sig callee IHc k IH|k IH|body IHb k IH];
    intros s Hs.
  - exact Hs.
  - rewrite run_CallOnInstall. apply IH. now rewrite external_onInstall_status.
  - rewrite run_CallOnUninstall. apply IH. now rewrite external_onUninstall_status.
  - rewrite run_CallExecute. cbv zeta.
    destruct (external_execute_cases callee sender target value data sig s)
      as [[e ->]|(ret & s1 & _ & _ & _ & ->)]; now apply IH.
  - cbn [run]. now apply IH.
  - rewrite run_Subcall. cbv zeta. specialize (IHb s Hs).
    apply IH. destruct (run env body s).1.1; assumption.
Qed.

(** With the guard closed, a run and the same run with its re-entry attempts
    taken out are the same run. *)
Lemma run_no_reentry a : forall s,
  status s = ENTERED -> run env a s = run env (no_reentry a) s.
Proof.
  induction a as [ok ret|sender data k IH|sender data k IH
                 |sender target value data sig callee IHc k IH|k IH|body IHb k IH];
    intros s Hs; cbn [no_reentry].
  - reflexivity.
  - rewrite !run_CallOnInstall. apply IH. now rewrite external_onInstall_status.
  - rewrite !run_CallOnUninstall. apply IH. now rewrite external_onUninstall_status.
  - rewrite run_CallExecute. cbv zeta.
    rewrite (execute_guard_closed _ _ _ _ _ _ _ Hs). now apply IH.
  - cbn [run]. now apply IH.
  - rewrite !run_Subcall. cbv zeta. rewrite <- (IHb s Hs).
    pose proof (run_status_entered body s Hs) as Hb.
    apply IH. destruct (run env body s).1.1; assumption.
Qed.

(** ** The consistency of the mappings along a run *)

Lemma consistent_installed_state s A pkp tokenId :
  A <> 0 -> isInstalled (accountPKPs_at s A) = false -> pkpToAccount_at s pkp = 0 ->
  consistent s -> consistent (installed_state s A pkp tokenId).
Proof.
  intros HA Hni Hfree (Hf & Hb & Hz). split; [|split].
  - intros X. rewrite installed_state_accountPKPs.
    destruct (decide (A = X)) as [->|HAX]; cbn [pkpEthAddress isInstalled].
    + intros _. rewrite installed_state_pkpToAccount. now rewrite decide_True.
    + intros HX. rewrite installed_state_pkpToAccount.
      destruct (decide (pkp = pkpEthAddress (accountPKPs_at s X))) as [E|_].
      * specialize (Hf X HX). rewrite <- E, Hfree in Hf. subst X. congruence.
      * now apply Hf.
  - intros S B. rewrite installed_state_pkpToAccount, installed_state_accountPKPs.
    destruct (decide (pkp = S)) as [->|HS].
    + intros -> _. now rewrite decide_True.
    + intros HS' HB. destruct (Hb S B HS' HB) as [Hi Hp].
      destruct (decide (A = B)) as [->|_]; [congruence | auto].
  - rewrite installed_state_accountPKPs. now rewrite decide_False.
Qed.

Lemma consistent_uninstalled_state s A :
  isInstalled (accountPKPs_at s A) = true ->
  consistent s -> consistent (uninstalled_state s A).
Proof.
  intros HiA (Hf & Hb & Hz). split; [|split].
  - intros X. rewrite uninstalled_state_accountPKPs.
    destruct (decide (A = X)) as [->|HAX]; [discriminate|].
    intros HX. rewrite uninstalled_state_pkpToAccount.
    destruct (decide (_ = _)) as [E|_]; [|now apply Hf].
    pose proof (Hf X HX) as HfX. pose proof (Hf A HiA) as HfA.
    rewrite E in HfA. congruence.
  - intros S B. rewrite uninstalled_state_pkpToAccount, uninstalled_state_accountPKPs.
    destruct (decide (_ = S)) as [E|HS]; [intros <-; congruence|].
    intros HS' HB. destruct (Hb S B HS' HB) as [Hi Hp].
    destruct (decide (A = B)) as [->|_]; [congruence | auto].
  - rewrite uninstalled_state_accountPKPs.
    destruct (decide (A = 0)); [reflexivity | exact Hz].
Qed.

Lemma consistent_external_onInstall sender data s :
  sender <> 0 -> consistent s -> consistent (external (onInstall sender data) s).2.
Proof.
  intros Hs Hc. rewrite external_onInstall.
  destruct (abi_decode_address_bytes32 data) as [[pkp tokenId]|]; [|exact Hc].
  destruct (isInstalled _) eqn:Hi; [exact Hc|].
  destruct (pkpToAccount_at s pkp =? 0) eqn:Hp; cbn [negb]; [|exact Hc].
  apply Z.eqb_eq in Hp. now apply consistent_installed_state.
Qed.

Lemma consistent_external_onUninstall sender data s :
  consistent s -> consistent (external (onUninstall sender data) s).2.
Proof.
  intros Hc. rewrite external_onUninstall.
  destruct (isInstalled _) eqn:Hi; cbn [negb]; [|exact Hc].
  now apply consistent_uninstalled_state.
Qed.

Lemma run_consistent a :
  senders_nonzero a -> forall s, consistent s -> consistent (run env a s).2.
Proof.
  induction 1 as [ok ret|sender data k Hs _ IH|sender data k Hs _ IH
                 |sender target value data sig callee k Hs _ IHc _ IH|k _ IH|body k _ IHb _ IH];
    intros s Hc.
  - exact Hc.
  - rewrite run_CallOnInstall. apply IH. now apply consistent_external_onInstall.
  - rewrite run_CallOnUninstall. apply IH. now apply consistent_external_onUninstall.
  - rewrite run_CallExecute. cbv zeta.
    destruct (external_execute_cases callee sender target value data sig s)
      as [[e ->]|(ret & s1 & _ & _ & Hrun & ->)]; apply IH; [exact Hc|].
    specialize (IHc (before_call env s sender target value data) Hc).
    rewrite Hrun in IHc. exact IHc.
  - cbn [run]. now apply IH.
  - rewrite run_Subcall. cbv zeta. specialize (IHb s Hc).
    apply IH. destruct (run env body s).1.1; assumption.
Qed.

Lemma invoke_execute sender target value data pkpSignature callee s :
  invoke env (ExecuteFromExecutor sender target value data pkpSignature callee) s =
  let r := external (executeFromExecutor env (forwarded env callee)
                       sender target value data pkpSignature) s in
  (outcome_of (fun ret => ret) r.1, r.2).
Proof. cbn [invoke]. now destruct (external _ s). Qed.

Lemma invoke_onInstall sender data s :
  invoke env (OnInstall sender data) s =
  (outcome_of (fun _ => []) (external (onInstall sender data) s).1,
   (external (onInstall sender data) s).2).
Proof. cbn [invoke]. now destruct (external _ s). Qed.

Lemma invoke_onUninstall sender data s :
  invoke env (OnUninstall sender data) s =
  (outcome_of (fun _ => []) (external (onUninstall sender data) s).1,
   (external (onUninstall sender data) s).2).
Proof. cbn [invoke]. now destruct (external _ s). Qed.

Lemma invoke_consistent c s :
  call_senders_nonzero c -> consistent s -> consistent (invoke env c s).2.
Proof.
  destruct c as [sender data|sender data|sender target value data sig callee];
    cbn [call_senders_nonzero]; intros Hnz Hc.
  - rewrite invoke_onInstall. now apply consistent_external_onInstall.
  - rewrite invoke_onUninstall. now apply consistent_external_onUninstall.
  - destruct Hnz as [_ Hnz]. rewrite invoke_execute. cbv zeta.
    destruct (external_execute_cases callee sender target value data sig s)
      as [[e ->]|(ret & s1 & _ & _ & Hrun & ->)]; [exact Hc|].
    pose proof (run_consistent callee Hnz
                  (before_call env s sender target value data) Hc) as H.
    rewrite Hrun in H. exact H.
Qed.

Lemma invoke_status c s :
  status s = NOT_ENTERED -> status (invoke env c s).2 = NOT_ENTERED.
Proof.
  intros Hs. destruct c as [sender data|sender data|sender target value data sig callee].
  - rewrite invoke_onInstall. cbn [snd]. now rewrite external_onInstall_status.
  - rewrite invoke_onUninstall. cbn [snd]. now rewrite external_onUninstall_status.
  - rewrite invoke_execute. cbv zeta.
    destruct (external_execute_cases callee sender target value data sig s)
      as [[e ->]|(ret & s1 & _ & _ & _ & ->)]; [exact Hs | reflexivity].
Qed.

Lemma run_calls_snoc cs c s :
  run_calls env (cs ++ [c]) s = (invoke env c (run_calls env cs s)).2.
Proof. unfold run_calls. now rewrite fold_left_app. Qed.

Lemma consistent_init_state : consistent init_state.
Proof.
  split; [|split]; [intros A H|intros S A H H0|reflexivity].
  - discriminate H.
  - exfalso. apply H0. rewrite <- H. reflexivity.
Qed.

Lemma run_calls_consistent cs :
  Forall call_senders_nonzero cs -> consistent (run_calls env cs init_state).
Proof.
  induction cs as [|c cs IH] using rev_ind; intros Hnz.
  - exact consistent_init_state.
  - apply Forall_app in Hnz as [Hcs Hc]. rewrite run_calls_snoc.
    apply invoke_consistent; [now inversion Hc | now apply IH].
Qed.

Lemma run_calls_status cs : status (run_calls env cs init_state) = NOT_ENTERED.
Proof.
  induction cs as [|c cs IH] using rev_ind; [reflexivity|].
  rewrite run_calls_snoc. now apply invoke_status.
Qed.

Lemma forward_consistent_distinct s : forward_consistent s -> signers_distinct s.
Proof.
  intros Hf A B HA HB E. rewrite <- (Hf A HA), <- (Hf B HB). now rewrite E.
Qed.

(** ** A registration stands until its account uninstalls *)

Lemma registration_kept_refl A s : registration_kept A s s.
Proof. exists []. split; [now rewrite app_nil_r | auto]. Qed.

Lemma registration_kept_trans A s1 s2 s3 :
  registration_kept A s1 s2 -> registration_kept A s2 s3 -> registration_kept A s1 s3.
Proof.
  intros (n1 & L1 & K1) (n2 & L2 & K2). exists (n1 ++ n2). split.
  - now rewrite L2, L1, app_assoc.
  - intros Hi. destruct (K1 Hi) as [E|[pkp Hin]].
    + rewrite E in K2. destruct (K2 Hi) as [E2|[pkp Hin]].
      * left. congruence.
      * right. exists pkp. apply in_or_app. now right.
    + right. exists pkp. apply in_or_app. now left.
Qed.

Lemma registration_kept_log A e s : registration_kept A s (add_log e s).
Proof. exists [e]. split; [reflexivity | auto]. Qed.

Lemma registration_kept_status A v s : registration_kept A s (set_status v s).
Proof. exists []. split; [cbn; now rewrite app_nil_r | auto]. Qed.

Lemma registration_kept_onInstall A sender data s :
  registration_kept A s (external (onInstall sender data) s).2.
Proof.
  rewrite external_onInstall.
  destruct (abi_decode_address_bytes32 data) as [[pkp tokenId]|];
    [|apply registration_kept_refl].
  destruct (isInstalled (accountPKPs_at s sender)) eqn:Hi; [apply registration_kept_refl|].
  destruct (negb _); [apply registration_kept_refl|]. cbn [snd].
  exists [ModuleInstalled sender pkp tokenId]. split; [reflexivity|].
  intros HiA. left. rewrite installed_state_accountPKPs.
  destruct (decide (sender = A)) as [->|_]; [congruence | reflexivity].
Qed.

Lemma registration_kept_onUninstall A sender data s :
  registration_kept A s (external (onUninstall sender data) s).2.
Proof.
  rewrite external_onUninstall.
  destruct (negb _); [apply registration_kept_refl|]. cbn [snd].
  exists [ModuleUninstalled sender (pkpEthAddress (accountPKPs_at s sender))].
  split; [reflexivity|]. intros _.
  destruct (decide (sender = A)) as [->|Hne].
  - right. eexists. now left.
  - left. rewrite uninstalled_state_accountPKPs. now rewrite decide_False.
Qed.

Lemma registration_kept_run A a : forall s, registration_kept A s (run env a s).2.
Proof.
  induction a as [ok ret|sender data k IH|sender data k IH
                 |sender target value data sig callee IHc k IH|k IH|body IHb k IH];
    intros s.
  - apply registration_kept_refl.
  - rewrite run_CallOnInstall.
    eapply registration_kept_trans; [apply registration_kept_onInstall | apply IH].
  - rewrite run_CallOnUninstall.
    eapply registration_kept_trans; [apply registration_kept_onUninstall | apply IH].
  - rewrite run_CallExecute. cbv zeta.
    destruct (external_execute_cases callee sender target value data sig s)
      as [[e ->]|(ret & s1 & _ & _ & Hrun & ->)]; [apply IH|].
    eapply registration_kept_trans; [|apply IH]. cbn [snd].
    specialize (IHc (before_call env s sender target value data)). rewrite Hrun in IHc.
    eapply registration_kept_trans;
      [eapply registration_kept_trans;
         [apply registration_kept_status | apply registration_kept_log]|].
    eapply registration_kept_trans; [exact IHc|].
    eapply registration_kept_trans;
      [apply registration_kept_log | apply registration_kept_status].
  - cbn [run]. apply IH.
  - rewrite run_Subcall. cbv zeta.
    eapply registration_kept_trans; [|apply IH].
    destruct (run env body s).1.1; [apply IHb | apply registration_kept_refl].
Qed.

Lemma registration_kept_invoke A c s : registration_kept A s (invoke env c s).2.
Proof.
  destruct c as [sender data|sender data|sender target value data sig callee].
  - rewrite invoke_onInstall. apply registration_kept_onInstall.
  - rewrite invoke_onUninstall. apply registration_kept_onUninstall.
  - rewrite invoke_execute. cbv zeta.
    destruct (external_execute_cases callee sender target value data sig s)
      as [[e ->]|(ret & s1 & _ & _ & Hrun & ->)]; [apply registration_kept_refl|].
    cbn [snd].
    pose proof (registration_kept_run A callee
                  (before_call env s sender target value data)) as Hc.
    rewrite Hrun in Hc.
    eapply registration_kept_trans;
      [eapply registration_kept_trans;
         [apply registration_kept_status | apply registration_kept_log]|].
    eapply registration_kept_trans; [exact Hc|].
    eapply registration_kept_trans;
      [apply registration_kept_log | apply registration_kept_status].
Qed.

Lemma registration_kept_run_calls A cs : forall s,
  registration_kept A s (run_calls env cs s).
Proof.
  induction cs as [|c cs IH] using rev_ind; intros s.
  - apply registration_kept_refl.
  - rewrite run_calls_snoc.
    eapply registration_kept_trans; [apply IH | apply registration_kept_invoke].
Qed.

Lemma run_calls_app cs1 cs2 s :
  run_calls env (cs1 ++ cs2) s = run_calls env cs2 (run_calls env cs1 s).
Proof. unfold run_calls. now rewrite fold_left_app. Qed.

(** An account that holds a registration and has logged no uninstall since
    still holds it. *)
Lemma registration_stands A cs s :
  isInstalled (accountPKPs_at s A) = true ->
  (forall pkp, ~ In (ModuleUninstalled A pkp)
                 (logs_since (length (logs s)) (run_calls env cs s))) ->
  accountPKPs_at (run_calls env cs s) A = accountPKPs_at s A.
Proof.
  intros Hi Hno. destruct (registration_kept_run_calls A cs s) as (new & Hl & Hk).
  destruct (Hk Hi) as [E|[pkp Hin]]; [exact E|].
  exfalso. apply (Hno pkp). unfold logs_since. rewrite Hl.
  now rewrite drop_app_length.
Qed.

(** In a consistent state, a signer address held by an installed account is
    refused to every other account. *)
Lemma claimed_signer_refused s A B S tokenId data :
  consistent s ->
  isInstalled (accountPKPs_at s A) = true ->
  pkpEthAddress (accountPKPs_at s A) = S ->
  isInstalled (accountPKPs_at s B) = false ->
  abi_decode_address_bytes32 data = Some (S, tokenId) ->
  invoke env (OnInstall B data) s = (Failure UnauthorizedPKP, s).
Proof.
  intros (Hf & _ & Hz) HiA HS HiB Hdec.
  assert (HA0 : A <> 0) by (intros ->; congruence).
  assert (Hclaimed : pkpToAccount_at s S <> 0).
  { rewrite <- HS, (Hf A HiA). exact HA0. }
  rewrite invoke_onInstall, external_onInstall, Hdec, HiB.
  apply Z.eqb_neq in Hclaimed. now rewrite Hclaimed.
Qed.

(** A signature that is not 65 bytes long ends the call of an installed
    account with the library's length error, on every chain. *)
Lemma wrong_length_signature_fails sender target value data pkpSignature callee s :
  status s <> ENTERED ->
  isInstalled (accountPKPs_at s sender) = true ->
  length pkpSignature <> 65%nat ->
  invoke env (ExecuteFromExecutor sender target value data pkpSignature callee) s
  = (Failure (ECDSAInvalidSignatureLength (Z.of_nat (length pkpSignature))), s).
Proof.
  intros Hst Hin Hlen. rewrite invoke_execute. cbv zeta. rewrite external_execute.
  replace (status s =? ENTERED) with false by (symmetry; now apply Z.eqb_neq).
  rewrite Hin. cbn [negb]. unfold ECDSA.recover.
  replace (length pkpSignature =? 65)%nat with false
    by (symmetry; now apply Nat.eqb_neq).
  reflexivity.
Qed.

(** The errors of the recovery library are not the contract's. *)
Lemma recover_error_not_InvalidSignature hash signature e :
  ECDSA.recover env hash signature = Revert e -> e <> InvalidSignature.
Proof.
  unfold ECDSA.recover.
  destruct (_ =? 65)%nat; [|intros [= <-]; discriminate].
  destruct (ECDSA.HALF_ORDER <? _); [intros [= <-]; discriminate|].
  destruct (ecrecover env _ _ _ _ =? 0); [intros [= <-]; discriminate | discriminate].
Qed.

(** * The claims *)

(** C1.  A call of executeFromExecutor that arrives while the guard is closed
    fails at once with the guard's error, whoever calls and whatever it
    passes, and changes nothing.  The forwarded call of an outer
    executeFromExecutor starts with the guard closed, and the guard stays
    closed through everything the called code does.  So the outer call ends
    with the same outcome and the same state as the call in which the code
    never made its re-entry attempts and went on from the guard's error. *)
Theorem reentrant_attempt_fails_without_trace
    (sender target : address) (value : uint256) (data pkpSignature : bytes)
    (callee : Action) (s : State) :
  (forall sender' target' value' data' pkpSignature' callee' s_in,
      status s_in = ENTERED ->
      invoke env (ExecuteFromExecutor sender' target' value' data' pkpSignature' callee') s_in
      = (Failure ReentrancyGuardReentrantCall, s_in)) /\
  status (before_call env s sender target value data) = ENTERED /\
  (forall a s_in, status s_in = ENTERED -> status (run env a s_in).2 = ENTERED) /\
  invoke env (ExecuteFromExecutor sender target value data pkpSignature callee) s
  = invoke env (ExecuteFromExecutor sender target value data pkpSignature (no_reentry callee)) s.
Proof.
  split; [|split; [|split]].
  - intros sender' target' value' data' sig' callee' s_in Hs.
    rewrite invoke_execute. cbv zeta.
    now rewrite (execute_guard_closed _ _ _ _ _ _ _ Hs).
  - reflexivity.
  - intros a s_in. apply run_status_entered.
  - rewrite !invoke_execute. cbv zeta. rewrite !external_execute.
    destruct (status s =? ENTERED); [reflexivity|].
    destruct (negb (isInstalled _)); [reflexivity|].
    destruct (ECDSA.recover env _ pkpSignature) as [a|e]; [|reflexivity].
    destruct (negb (a =? _)); [reflexivity|].
    now rewrite <- run_no_reentry.
Qed.

(** C2, as amended.  For an installed caller and a call that is not a
    re-entry, executeFromExecutor fails with InvalidSignature exactly when
    recovery succeeds and the recovered address is not the registered
    pkpEthAddress.  When recovery itself fails, the call fails with the
    recovery library's error.  When the recovered address is the registered
    one, the call goes on to the forwarded call: it returns the callee's
    data, or fails with ExecutionFailed when the callee fails. *)
Theorem invalid_signature_iff_recovered_signer_differs
    (sender target : address) (value : uint256) (data pkpSignature : bytes)
    (callee : Action) (s : State) :
  status s <> ENTERED ->
  isInstalled (accountPKPs_at s sender) = true ->
  let digest := digest_of env sender target value data in
  let registered := pkpEthAddress (accountPKPs_at s sender) in
  let result :=
    invoke env (ExecuteFromExecutor sender target value data pkpSignature callee) s in
  (result.1 = Failure InvalidSignature <->
     exists a, ECDSA.recover env digest pkpSignature = Ok a /\ a <> registered) /\
  (forall e, ECDSA.recover env digest pkpSignature = Revert e -> result = (Failure e, s)) /\
  (ECDSA.recover env digest pkpSignature = Ok registered ->
     result =
     let '(success, returnData, s1) :=
       run env callee (before_call env s sender target value data) in
     if success then (Success returnData, after_call s1 sender target value data)
     else (Failure ExecutionFailed, s)).
Proof.
  intros Hst Hin digest registered result. subst result digest registered.
  rewrite invoke_execute. cbv zeta. rewrite external_execute.
  replace (status s =? ENTERED) with false by (symmetry; now apply Z.eqb_neq).
  rewrite Hin. cbn [negb].
  destruct (ECDSA.recover env _ pkpSignature) as [a|e] eqn:Hrec.
  - destruct (a =? pkpEthAddress (accountPKPs_at s sender)) eqn:Ha; cbn [negb].
    + apply Z.eqb_eq in Ha. subst a.
      destruct (run env callee _) as [[success returnData] s1].
      split; [|split].
      * split.
        -- destruct success; discriminate.
        -- intros (a & [= <-] & Hne). congruence.
      * discriminate.
      * intros _. destruct success; reflexivity.
    + apply Z.eqb_neq in Ha. split; [|split].
      * split; [intros _; eauto | reflexivity].
      * discriminate.
      * intros [= E]. congruence.
  - split; [|split].
    + split.
      * cbn. intros [= ->]. now apply recover_error_not_InvalidSignature in Hrec.
      * intros (a & Hok & _). discriminate.
    + now intros e' [= <-].
    + discriminate.
Qed.

(** C3.  getOperationHash returns the hash of the packed encoding of
    (account, target, value, data, chain id, module address) whatever the
    contract's state, and leaves the state alone.  On one chain and one
    module, the packed encodings of two tuples of an account, a target, a
    uint256 value and call data are equal only when the tuples are. *)
Theorem operation_hash_deterministic_encoding_unambiguous
    (account target : address) (value : uint256) (data : bytes)
    (account' target' : address) (value' : uint256) (data' : bytes) (s : State) :
  0 <= account < 2 ^ 160 -> 0 <= target < 2 ^ 160 -> 0 <= value < 2 ^ 256 ->
  0 <= account' < 2 ^ 160 -> 0 <= target' < 2 ^ 160 -> 0 <= value' < 2 ^ 256 ->
  getOperationHash env account target value data s
  = Ok (keccak256 env
          (encodePacked_operation account target value data (chainid env) (this env)), s) /\
  (encodePacked_operation account target value data (chainid env) (this env)
   = encodePacked_operation account' target' value' data' (chainid env) (this env) ->
   account = account' /\ target = target' /\ value = value' /\ data = data').
Proof.
  intros Ha Ht Hv Ha' Ht' Hv'. split; [reflexivity|].
  unfold encodePacked_operation. intros E.
  apply app_split_same_length in E as [Ea E]; [|now rewrite !length_be].
  apply app_split_same_length in E as [Et E]; [|now rewrite !length_be].
  apply app_split_same_length in E as [Ev E]; [|now rewrite !length_be].
  apply app_split_same_tail in E as [Ed _]; [|now rewrite !length_app, !length_be].
  repeat split.
  - now apply (be_inj 20).
  - now apply (be_inj 20).
  - now apply (be_inj 32).
  - exact Ed.
Qed.

(** C4.  Senders are non-zero addresses: no account or contract calls as
    the zero address, which pkpToAccount holds for "unclaimed".  After any
    history [cs1], let A install successfully with signer S, and let any
    calls [cs2] follow in which A logs no uninstall.  Then an install with
    the same S by another account B that is not installed fails with
    UnauthorizedPKP, changes nothing, and isModuleInstalled(B, 2) is false
    afterwards. *)
Theorem second_claim_of_signer_is_refused
    (cs1 cs2 : list Call) (A B S : address) (tokenIdA tokenIdB : bytes32)
    (dataA dataB : bytes) :
  Forall call_senders_nonzero (cs1 ++ OnInstall A dataA :: cs2) ->
  abi_decode_address_bytes32 dataA = Some (S, tokenIdA) ->
  abi_decode_address_bytes32 dataB = Some (S, tokenIdB) ->
  let s0 := run_calls env cs1 init_state in
  (invoke env (OnInstall A dataA) s0).1 = Success [] ->
  let s1 := (invoke env (OnInstall A dataA) s0).2 in
  let s2 := run_calls env cs2 s1 in
  (forall pkp, ~ In (ModuleUninstalled A pkp) (logs_since (length (logs s1)) s2)) ->
  A <> B ->
  isInstalled (accountPKPs_at s2 B) = false ->
  invoke env (OnInstall B dataB) s2 = (Failure UnauthorizedPKP, s2) /\
  isModuleInstalled B MODULE_TYPE (invoke env (OnInstall B dataB) s2).2
  = Ok (false, (invoke env (OnInstall B dataB) s2).2).
Proof.
  intros Hnz HdecA HdecB s0 Hok s1 s2 Hno HAB HiB.
  assert (Hs2 : s2 = run_calls env (cs1 ++ OnInstall A dataA :: cs2) init_state).
  { unfold s2, s1, s0. rewrite run_calls_app. reflexivity. }
  assert (Hc : consistent s2) by (rewrite Hs2; now apply run_calls_consistent).
  assert (H1 : accountPKPs_at s1 A = mkPKPInfo S tokenIdA true).
  { revert Hok. unfold s1. rewrite invoke_onInstall, external_onInstall, HdecA.
    destruct (isInstalled (accountPKPs_at s0 A)); [discriminate|].
    destruct (negb _); [discriminate|]. intros _. cbn [snd].
    rewrite installed_state_accountPKPs. now rewrite decide_True. }
  assert (H2 : accountPKPs_at s2 A = mkPKPInfo S tokenIdA true).
  { rewrite <- H1. apply registration_stands; [now rewrite H1 | exact Hno]. }
  assert (E : invoke env (OnInstall B dataB) s2 = (Failure UnauthorizedPKP, s2)).
  { apply (claimed_signer_refused s2 A B S tokenIdB dataB Hc); try assumption;
      now rewrite H2. }
  split; [exact E|]. rewrite E. cbn [snd].
  unfold isModuleInstalled. rewrite Z.eqb_refl. cbn [negb]. unfold_M.
  now rewrite HiB.
Qed.

(** C5, as amended.  For a caller with no registration, executeFromExecutor
    fails whatever the target, value, data and signature are, and whatever
    the chain would answer to the forwarded call: with ModuleNotInstalled
    when the call is not a re-entry, and with the guard's error when it is.
    The state is left as it was. *)
Theorem execute_without_install_fails
    (call : address -> uint256 -> bytes -> M (bool * bytes))
    (sender target : address) (value : uint256) (data pkpSignature : bytes) (s : State) :
  isInstalled (accountPKPs_at s sender) = false ->
  external (executeFromExecutor env call sender target value data pkpSignature) s
  = (Revert (if status s =? ENTERED then ReentrancyGuardReentrantCall
             else ModuleNotInstalled), s).
Proof.
  intros Hin. unfold executeFromExecutor. unfold_M.
  destruct (status s =? ENTERED); [reflexivity|].
  change (accountPKPs_at (set_status ENTERED s) sender) with (accountPKPs_at s sender).
  now rewrite Hin.
Qed.

(** C6.  For install arguments (pkp, tokenId): when the caller already has a
    registration, onInstall fails with ModuleAlreadyInstalled, whether or
    not the signer address is claimed; only when the caller has none is the
    signer address looked up, and a claimed one makes it fail with
    UnauthorizedPKP.  With neither, the install succeeds. *)
Theorem install_checks_in_order
    (sender : address) (data : bytes) (pkp : address) (tokenId : bytes32) (s : State) :
  abi_decode_address_bytes32 data = Some (pkp, tokenId) ->
  (isInstalled (accountPKPs_at s sender) = true ->
   invoke env (OnInstall sender data) s = (Failure ModuleAlreadyInstalled, s)) /\
  (isInstalled (accountPKPs_at s sender) = false -> pkpToAccount_at s pkp <> 0 ->
   invoke env (OnInstall sender data) s = (Failure UnauthorizedPKP, s)) /\
  (isInstalled (accountPKPs_at s sender) = false -> pkpToAccount_at s pkp = 0 ->
   invoke env (OnInstall sender data) s = (Success [], installed_state s sender pkp tokenId)).
Proof.
  intros Hdec. rewrite invoke_onInstall, external_onInstall, Hdec.
  split; [|split].
  - now intros ->.
  - intros -> Hp. apply Z.eqb_neq in Hp. now rewrite Hp.
  - intros -> Hp. apply Z.eqb_eq in Hp. now rewrite Hp.
Qed.

(** C7.  A call of onInstall, onUninstall or executeFromExecutor that fails
    leaves the whole state, the two mappings included, as it was.  After a
    successful install by an account, a second install by it, with any
    install arguments, fails with ModuleAlreadyInstalled and the state is
    still the one the first install left. *)
Theorem failed_call_leaves_state
    (c : Call) (s : State) (A : address) (data1 data2 : bytes)
    (pkp2 : address) (tokenId2 : bytes32) :
  (forall e, (invoke env c s).1 = Failure e -> (invoke env c s).2 = s) /\
  (forall s1, invoke env (OnInstall A data1) s = (Success [], s1) ->
              abi_decode_address_bytes32 data2 = Some (pkp2, tokenId2) ->
              invoke env (OnInstall A data2) s1 = (Failure ModuleAlreadyInstalled, s1)).
Proof.
  split.
  - intros e. destruct c as [sender data|sender data|sender target value data sig callee].
    + rewrite invoke_onInstall, external_onInstall.
      destruct (abi_decode_address_bytes32 data) as [[pkp tokenId]|]; [|reflexivity].
      destruct (isInstalled _); [reflexivity|].
      destruct (negb _); [reflexivity | discriminate].
    + rewrite invoke_onUninstall, external_onUninstall.
      destruct (negb _); [reflexivity | discriminate].
    + rewrite invoke_execute. cbv zeta.
      destruct (external_execute_cases callee sender target value data sig s)
        as [[e' ->]|(ret & s1 & _ & _ & _ & ->)]; [reflexivity | discriminate].
  - intros s1. rewrite !invoke_onInstall, !external_onInstall.
    destruct (abi_decode_address_bytes32 data1) as [[pkp tokenId]|]; [|discriminate].
    destruct (isInstalled (accountPKPs_at s A)); [discriminate|].
    destruct (negb _); [discriminate|]. cbn [fst snd outcome_of].
    intros [= <-] ->.
    rewrite installed_state_accountPKPs, decide_True by reflexivity. reflexivity.
Qed.

(** C8.  After a successful install by A with signer S, the uninstall by A
    succeeds; after it getPKPInfo(A) is (0, 0, false), and an install with
    the same S by any account B that has no registration succeeds and
    registers S for B. *)
Theorem uninstall_clears_both_mappings
    (A S : address) (tokenId : bytes32) (dataA dataU : bytes) (s s1 : State) :
  abi_decode_address_bytes32 dataA = Some (S, tokenId) ->
  invoke env (OnInstall A dataA) s = (Success [], s1) ->
  exists s2,
    invoke env (OnUninstall A dataU) s1 = (Success [], s2) /\
    getPKPInfo A s2 = Ok ((0, 0, false), s2) /\
    pkpToAccount_at s2 S = 0 /\
    forall B dataB tokenIdB,
      isInstalled (accountPKPs_at s2 B) = false ->
      abi_decode_address_bytes32 dataB = Some (S, tokenIdB) ->
      exists s3,
        invoke env (OnInstall B dataB) s2 = (Success [], s3) /\
        getPKPInfo B s3 = Ok ((S, tokenIdB, true), s3) /\
        pkpToAccount_at s3 S = B.
Proof.
  intros Hdec. rewrite invoke_onInstall, external_onInstall, Hdec.
  destruct (isInstalled (accountPKPs_at s A)); [discriminate|].
  destruct (negb _); [discriminate|]. cbn [fst snd outcome_of]. intros [= <-].
  set (s1 := installed_state s A S tokenId).
  assert (HA : accountPKPs_at s1 A = mkPKPInfo S tokenId true).
  { unfold s1. rewrite installed_state_accountPKPs. now rewrite decide_True. }
  exists (uninstalled_state s1 A).
  assert (Hfree : pkpToAccount_at (uninstalled_state s1 A) S = 0).
  { rewrite uninstalled_state_pkpToAccount, HA. cbn [pkpEthAddress].
    now rewrite decide_True. }
  split; [|split; [|split]].
  - rewrite invoke_onUninstall, external_onUninstall, HA. reflexivity.
  - unfold getPKPInfo. unfold_M.
    rewrite uninstalled_state_accountPKPs, decide_True by reflexivity. reflexivity.
  - exact Hfree.
  - intros B dataB tokenIdB HiB HdecB.
    exists (installed_state (uninstalled_state s1 A) B S tokenIdB).
    split; [|split].
    + rewrite invoke_onInstall, external_onInstall, HdecB, HiB, Hfree. reflexivity.
    + unfold getPKPInfo. unfold_M.
      rewrite installed_state_accountPKPs, decide_True by reflexivity. reflexivity.
    + rewrite installed_state_pkpToAccount. now rewrite decide_True.
Qed.

(** C9.  isModuleInstalled(account, moduleTypeId) always returns, leaves the
    state as it is, and answers false when moduleTypeId is not 2 and the
    account's isInstalled flag when it is. *)
Theorem isModuleInstalled_reads_flag
    (account : address) (moduleTypeId : uint256) (s : State) :
  isModuleInstalled account moduleTypeId s
  = Ok ((if moduleTypeId =? 2 then isInstalled (accountPKPs_at s account) else false), s).
Proof.
  unfold isModuleInstalled, MODULE_TYPE.
  destruct (moduleTypeId =? 2); reflexivity.
Qed.

(** C10.  Senders are non-zero addresses.  In every state reached from
    deployment by calls of onInstall, onUninstall and executeFromExecutor
    (with whatever the forwarded calls do to the module), each installed
    account is the one its signer address maps to, each signer address
    mapped to a non-zero account belongs to that installed account, and no
    two installed accounts record the same signer address. *)
Theorem mappings_consistent (cs : list Call) :
  Forall call_senders_nonzero cs ->
  let s := run_calls env cs init_state in
  forward_consistent s /\ backward_consistent s /\ signers_distinct s.
Proof.
  intros Hnz s. destruct (run_calls_consistent cs Hnz) as (Hf & Hb & _).
  split; [exact Hf | split; [exact Hb | now apply forward_consistent_distinct]].
Qed.

End Properties.

(** * The claims on the demonstration chain *)

Ltac concrete := vm_compute; first [reflexivity | discriminate | lia].

Lemma reenter_as_senders_nonzero caller pkpSignature :
  caller <> 0 -> senders_nonzero (Demo.reenter_as caller pkpSignature).
Proof.
  intros Hc. apply snz_CallExecute; [exact Hc | constructor |].
  intros [ret|e]; [|destruct e]; constructor.
Qed.

(** C1 on the demonstration chain: bob's call, arriving inside alice's forwarded
    call, fails with the guard's error, and alice's call ends as it does
    when the target does not try. *)
Lemma reentrant_attempt_fails_without_trace_witness :
  status Demo.inside_alice_call = ENTERED /\
  invoke Demo.env
    (ExecuteFromExecutor Demo.bob Demo.target 0 [] [] (Return true [])) Demo.inside_alice_call
  = (Failure ReentrancyGuardReentrantCall, Demo.inside_alice_call) /\
  invoke Demo.env
    (ExecuteFromExecutor Demo.alice Demo.target 0 [] Demo.good_signature
       (Demo.reenter_as Demo.alice Demo.good_signature)) Demo.alice_installed
  = invoke Demo.env
      (ExecuteFromExecutor Demo.alice Demo.target 0 [] Demo.good_signature
         (no_reentry (Demo.reenter_as Demo.alice Demo.good_signature))) Demo.alice_installed.
Proof.
  pose proof (reentrant_attempt_fails_without_trace Demo.env Demo.alice Demo.target 0 []
                Demo.good_signature (Demo.reenter_as Demo.alice Demo.good_signature)
                Demo.alice_installed) as (Hinner & Hclosed & _ & Houter).
  split; [exact Hclosed|]. split; [|exact Houter].
  apply Hinner. exact Hclosed.
Defined.

(** C2, as stated, fails on the demonstration chain.  With the empty signature
    recovery fails, and alice's call fails with the library's length error,
    not with InvalidSignature.  And inside a forwarded call, a well-formed
    signature of a signer that is not registered makes the call fail with
    the guard's error, not with InvalidSignature. *)
Lemma malformed_signature_is_not_InvalidSignature :
  let digest := digest_of Demo.env Demo.alice Demo.target 0 [] in
  let registered s := pkpEthAddress (accountPKPs_at s Demo.alice) in
  let result pkpSignature s :=
    invoke Demo.env
      (ExecuteFromExecutor Demo.alice Demo.target 0 [] pkpSignature (Return true [])) s in
  let claim pkpSignature s :=
    (result pkpSignature s).1 = Failure InvalidSignature <->
    ((exists e, ECDSA.recover Demo.env digest pkpSignature = Revert e) \/
     (exists a, ECDSA.recover Demo.env digest pkpSignature = Ok a /\ a <> registered s)) in
  (isInstalled (accountPKPs_at Demo.alice_installed Demo.alice) = true /\
   (result [] Demo.alice_installed).1 = Failure (ECDSAInvalidSignatureLength 0) /\
   ~ claim [] Demo.alice_installed) /\
  (isInstalled (accountPKPs_at Demo.inside_alice_call Demo.alice) = true /\
   (result Demo.foreign_signature Demo.inside_alice_call).1 = Failure ReentrancyGuardReentrantCall /\
   ~ claim Demo.foreign_signature Demo.inside_alice_call).
Proof.
  cbv zeta. split; (split; [concrete|]); (split; [concrete|]).
  - intros [_ H].
    assert (Hf : (invoke Demo.env
               (ExecuteFromExecutor Demo.alice Demo.target 0 [] [] (Return true []))
               Demo.alice_installed).1 = Failure InvalidSignature).
    { apply H. left. exists (ECDSAInvalidSignatureLength 0). concrete. }
    vm_compute in Hf. discriminate Hf.
  - intros [_ H].
    assert (Hf : (invoke Demo.env
               (ExecuteFromExecutor Demo.alice Demo.target 0 [] Demo.foreign_signature
                  (Return true []))
               Demo.inside_alice_call).1 = Failure InvalidSignature).
    { apply H. right. exists Demo.other_pkp. split; [concrete|].
      vm_compute. discriminate. }
    vm_compute in Hf. discriminate Hf.
Qed.

(** C2, as amended, on the demonstration chain: a well-formed signature of a signer
    that is not registered makes alice's call fail with InvalidSignature. *)
Lemma invalid_signature_iff_recovered_signer_differs_witness :
  status Demo.alice_installed <> ENTERED /\
  isInstalled (accountPKPs_at Demo.alice_installed Demo.alice) = true /\
  (invoke Demo.env
     (ExecuteFromExecutor Demo.alice Demo.target 0 [] Demo.foreign_signature (Return true []))
     Demo.alice_installed).1 = Failure InvalidSignature.
Proof.
  assert (H1 : status Demo.alice_installed <> ENTERED) by (vm_compute; discriminate).
  assert (H2 : isInstalled (accountPKPs_at Demo.alice_installed Demo.alice) = true)
    by concrete.
  split; [exact H1|]. split; [exact H2|].
  apply (proj1 (invalid_signature_iff_recovered_signer_differs Demo.env Demo.alice
                  Demo.target 0 [] Demo.foreign_signature (Return true [])
                  Demo.alice_installed H1 H2)).
  exists Demo.other_pkp. split; [concrete | vm_compute; discriminate].
Defined.

(** C3 on the demonstration chain: the hash alice's call is given, and two calls
    that differ in value and data have different encodings. *)
Lemma operation_hash_deterministic_encoding_unambiguous_witness :
  getOperationHash Demo.env Demo.alice Demo.target 0 [x01] Demo.alice_installed
  = Ok (operationHash_of Demo.env Demo.alice Demo.target 0 [x01], Demo.alice_installed) /\
  encodePacked_operation Demo.alice Demo.target 0 [x01] (chainid Demo.env) (this Demo.env)
  <> encodePacked_operation Demo.alice Demo.target 1 [] (chainid Demo.env) (this Demo.env).
Proof.
  assert (Ha : 0 <= Demo.alice < 2 ^ 160) by (vm_compute; split; discriminate || reflexivity).
  assert (Ht : 0 <= Demo.target < 2 ^ 160) by (vm_compute; split; discriminate || reflexivity).
  assert (H0 : 0 <= 0 < 2 ^ 256) by (vm_compute; split; discriminate || reflexivity).
  assert (H1 : 0 <= 1 < 2 ^ 256) by (vm_compute; split; discriminate || reflexivity).
  destruct (operation_hash_deterministic_encoding_unambiguous Demo.env
              Demo.alice Demo.target 0 [x01] Demo.alice Demo.target 1 []
              Demo.alice_installed Ha Ht H0 Ha Ht H1) as [Hhash Hinj].
  split; [exact Hhash|].
  intros E. destruct (Hinj E) as (_ & _ & Hv & _). discriminate Hv.
Defined.

(** C4 on the demonstration chain: alice installs with a signer, runs a call whose
    target tries to re-enter, and then bob's install with the same signer is
    refused. *)
Lemma second_claim_of_signer_is_refused_witness :
  let s2 :=
    run_calls Demo.env
      [OnInstall Demo.alice (abi_encode_address_bytes32 Demo.pkp 7);
       ExecuteFromExecutor Demo.alice Demo.target 0 [] Demo.good_signature
         (Demo.reenter_as Demo.bob [])]
      init_state in
  invoke Demo.env (OnInstall Demo.bob (abi_encode_address_bytes32 Demo.pkp 9)) s2
  = (Failure UnauthorizedPKP, s2).
Proof.
  apply (second_claim_of_signer_is_refused Demo.env []
           [ExecuteFromExecutor Demo.alice Demo.target 0 [] Demo.good_signature
              (Demo.reenter_as Demo.bob [])]
           Demo.alice Demo.bob Demo.pkp 7 9
           (abi_encode_address_bytes32 Demo.pkp 7)
           (abi_encode_address_bytes32 Demo.pkp 9)).
  - constructor; [vm_compute; discriminate|].
    constructor; [|constructor].
    split; [vm_compute; discriminate|].
    apply reenter_as_senders_nonzero. vm_compute. discriminate.
  - concrete.
  - concrete.
  - concrete.
  - intros pkp H. vm_compute in H. intuition discriminate.
  - vm_compute. discriminate.
  - concrete.
Defined.

(** C5, as stated, fails on the demonstration chain: bob has no registration, and his
    call, arriving inside alice's forwarded call, fails with the guard's
    error, not with ModuleNotInstalled.  Seen from outside: alice's call
    succeeds and returns the byte by which the target reports the guard's
    error. *)
Lemma reentrant_call_of_uninstalled_account_is_not_ModuleNotInstalled :
  let inner :=
    invoke Demo.env (ExecuteFromExecutor Demo.bob Demo.target 0 [] [] (Return true []))
      Demo.inside_alice_call in
  isInstalled (accountPKPs_at Demo.inside_alice_call Demo.bob) = false /\
  inner = (Failure ReentrancyGuardReentrantCall, Demo.inside_alice_call) /\
  inner.1 <> Failure ModuleNotInstalled /\
  (invoke Demo.env
     (ExecuteFromExecutor Demo.alice Demo.target 0 [] Demo.good_signature
        (Demo.reenter_as Demo.bob [])) Demo.alice_installed).1 = Success [x02].
Proof.
  cbv zeta. split; [concrete|]. split; [concrete|]. split; [|concrete].
  vm_compute. discriminate.
Qed.

(** C5, as amended, on the demonstration chain: bob's call from outside fails with
    ModuleNotInstalled. *)
Lemma execute_without_install_fails_witness :
  external
    (executeFromExecutor Demo.env (forwarded Demo.env (Return true []))
       Demo.bob Demo.target 0 [] Demo.good_signature) Demo.alice_installed
  = (Revert ModuleNotInstalled, Demo.alice_installed).
Proof.
  apply (execute_without_install_fails Demo.env (forwarded Demo.env (Return true []))
           Demo.bob Demo.target 0 [] Demo.good_signature Demo.alice_installed).
  concrete.
Defined.

(** C6 on the demonstration chain: alice, installed, asking for a signer that is
    claimed (her own) is told ModuleAlreadyInstalled; bob, not installed, is
    told UnauthorizedPKP. *)
Lemma install_checks_in_order_witness :
  pkpToAccount_at Demo.alice_installed Demo.pkp <> 0 /\
  invoke Demo.env (OnInstall Demo.alice (abi_encode_address_bytes32 Demo.pkp 9))
    Demo.alice_installed
  = (Failure ModuleAlreadyInstalled, Demo.alice_installed) /\
  invoke Demo.env (OnInstall Demo.bob (abi_encode_address_bytes32 Demo.pkp 9))
    Demo.alice_installed
  = (Failure UnauthorizedPKP, Demo.alice_installed).
Proof.
  assert (Hdec : abi_decode_address_bytes32 (abi_encode_address_bytes32 Demo.pkp 9)
                 = Some (Demo.pkp, 9)) by concrete.
  assert (Hclaimed : pkpToAccount_at Demo.alice_installed Demo.pkp <> 0)
    by (vm_compute; discriminate).
  split; [exact Hclaimed|]. split.
  - apply (proj1 (install_checks_in_order Demo.env Demo.alice _ Demo.pkp 9
                    Demo.alice_installed Hdec)).
    concrete.
  - apply (proj1 (proj2 (install_checks_in_order Demo.env Demo.bob _ Demo.pkp 9
                           Demo.alice_installed Hdec)));
      [concrete | exact Hclaimed].
Defined.

(** C7 on the demonstration chain: alice's call with a foreign signature fails and
    leaves the state; her second install fails and leaves the state. *)
Lemma failed_call_leaves_state_witness :
  (invoke Demo.env
     (ExecuteFromExecutor Demo.alice Demo.target 0 [] Demo.foreign_signature
        (Return true [])) Demo.alice_installed).2 = Demo.alice_installed /\
  invoke Demo.env (OnInstall Demo.alice (abi_encode_address_bytes32 Demo.other_pkp 9))
    Demo.alice_installed
  = (Failure ModuleAlreadyInstalled, Demo.alice_installed).
Proof.
  destruct (failed_call_leaves_state Demo.env
              (ExecuteFromExecutor Demo.alice Demo.target 0 [] Demo.foreign_signature
                 (Return true []))
              Demo.alice_installed Demo.alice
              (abi_encode_address_bytes32 Demo.pkp 7)
              (abi_encode_address_bytes32 Demo.other_pkp 9) Demo.other_pkp 9)
    as [Hfail _].
  destruct (failed_call_leaves_state Demo.env (OnUninstall Demo.bob [])
              init_state Demo.alice
              (abi_encode_address_bytes32 Demo.pkp 7)
              (abi_encode_address_bytes32 Demo.other_pkp 9) Demo.other_pkp 9)
    as [_ Hsecond].
  split.
  - apply (Hfail InvalidSignature). concrete.
  - apply Hsecond; concrete.
Defined.

(** C8 on the demonstration chain: alice installs and uninstalls; her record reads
    as zero and bob can register her former signer. *)
Lemma uninstall_clears_both_mappings_witness :
  exists s2,
    invoke Demo.env (OnUninstall Demo.alice []) Demo.alice_installed = (Success [], s2) /\
    getPKPInfo Demo.alice s2 = Ok ((0, 0, false), s2) /\
    exists s3,
      invoke Demo.env (OnInstall Demo.bob (abi_encode_address_bytes32 Demo.pkp 9)) s2
      = (Success [], s3) /\
      getPKPInfo Demo.bob s3 = Ok ((Demo.pkp, 9, true), s3).
Proof.
  destruct (uninstall_clears_both_mappings Demo.env Demo.alice Demo.pkp 7
              (abi_encode_address_bytes32 Demo.pkp 7) [] init_state Demo.alice_installed)
    as (s2 & Hun & Hinfo & _ & Hagain); [concrete | concrete |].
  exists s2. split; [exact Hun|]. split; [exact Hinfo|].
  destruct (Hagain Demo.bob (abi_encode_address_bytes32 Demo.pkp 9) 9)
    as (s3 & Hin & HinfoB & _).
  - assert (Es : s2 = (invoke Demo.env (OnUninstall Demo.alice []) Demo.alice_installed).2)
      by (now rewrite Hun).
    rewrite Es. concrete.
  - concrete.
  - exists s3. split; [exact Hin | exact HinfoB].
Defined.

(** C10 on the demonstration chain: after alice installs, runs a call whose target
    tries to re-enter and to install as itself, and bob installs, the
    mappings are consistent. *)
Lemma mappings_consistent_witness :
  let s :=
    run_calls Demo.env
      [OnInstall Demo.alice (abi_encode_address_bytes32 Demo.pkp 7);
       ExecuteFromExecutor Demo.alice Demo.target 0 [] Demo.good_signature
         (CallOnInstall Demo.target (abi_encode_address_bytes32 Demo.other_pkp 1)
            (fun _ => Demo.reenter_as Demo.bob []));
       OnInstall Demo.bob (abi_encode_address_bytes32 Demo.pkp 9)]
      init_state in
  forward_consistent s /\ backward_consistent s /\ signers_distinct s.
Proof.
  apply (mappings_consistent Demo.env).
  constructor; [vm_compute; discriminate|].
  constructor.
  - split; [vm_compute; discriminate|].
    apply snz_CallOnInstall; [vm_compute; discriminate|].
    intros r. apply reenter_as_senders_nonzero. vm_compute. discriminate.
  - constructor; [vm_compute; discriminate | constructor].
Defined.

(** * More properties of the contract *)

Section MoreProperties.

Variable env : Env.

Ltac run_M :=
  unfold nonReentrant, external, low_level_call, pure_call, emit, sstore, sload, revert,
    mbind, M_bind, mret, M_ret in *.

(** ** A principle for properties of the registry

    A property of states that the guard word and the two events of executeFromExecutor do not touch, and
    that onInstall and onUninstall keep, is kept by everything external code
    can do, and so by every call and every sequence of calls. *)
Section RegistryInvariant.

Variable P : State -> Prop.
Hypothesis P_status : forall s v, P s -> P (set_status v s).
Hypothesis P_verified :
  forall s account operationHash pkpAddress,
    P s -> P (add_log (PKPSignatureVerified account operationHash pkpAddress) s).
Hypothesis P_executed :
  forall s account target value data,
    P s -> P (add_log (OperationExecuted account target value data) s).
Hypothesis P_onInstall :
  forall s sender data, P s -> P (external (onInstall sender data) s).2.
Hypothesis P_onUninstall :
  forall s sender data, P s -> P (external (onUninstall sender data) s).2.

Lemma registry_invariant_run a : forall s, P s -> P (run env a s).2.
Proof.
  induction a as [ok ret|sender data k IH|sender data k IH
                 |sender target value data sig callee IHc k IH|k IH|body IHb k IH];
    intros s Hs.
  - exact Hs.
  - rewrite run_CallOnInstall. apply IH, P_onInstall, Hs.
  - rewrite run_CallOnUninstall. apply IH, P_onUninstall, Hs.
  - rewrite run_CallExecute. cbv zeta.
    destruct (external_execute_cases env callee sender target value data sig s)
      as [[e ->]|(ret & s1 & _ & _ & Hrun & ->)]; apply IH; [exact Hs|].
    cbn [snd]. apply P_status, P_executed.
    specialize (IHc (before_call env s sender target value data)).
    rewrite Hrun in IHc. apply IHc. apply P_verified, P_status, Hs.
  - cbn [run]. apply IH, Hs.
  - rewrite run_Subcall. cbv zeta. apply IH.
    specialize (IHb s Hs). destruct (run env body s).1.1; assumption.
Qed.

Lemma registry_invariant_invoke c s : P s -> P (invoke env c s).2.
Proof.
  intros Hs. destruct c as [sender data|sender data|sender target value data sig callee].
  - rewrite invoke_onInstall. apply P_onInstall, Hs.
  - rewrite invoke_onUninstall. apply P_onUninstall, Hs.
  - rewrite invoke_execute. cbv zeta.
    destruct (external_execute_cases env callee sender target value data sig s)
      as [[e ->]|(ret & s1 & _ & _ & Hrun & ->)]; [exact Hs|].
    cbn [snd]. apply P_status, P_executed.
    pose proof (registry_invariant_run callee
                  (before_call env s sender target value data)) as Hc.
    rewrite Hrun in Hc. apply Hc. apply P_verified, P_status, Hs.
Qed.

Lemma registry_invariant_run_calls cs : forall s, P s -> P (run_calls env cs s).
Proof.
  induction cs as [|c cs IH] using rev_ind; intros s Hs; [exact Hs|].
  rewrite run_calls_snoc. apply registry_invariant_invoke, IH, Hs.
Qed.

End RegistryInvariant.

Lemma absent_records_zero_onInstall s sender data :
  absent_records_zero s -> absent_records_zero (external (onInstall sender data) s).2.
Proof.
  intros Hz. rewrite external_onInstall.
  destruct (abi_decode_address_bytes32 data) as [[pkp tokenId]|]; [|exact Hz].
  destruct (isInstalled (accountPKPs_at s sender)); [exact Hz|].
  destruct (negb _); [exact Hz|]. cbn [snd].
  intros A. rewrite installed_state_accountPKPs.
  destruct (decide (sender = A)); [discriminate | apply Hz].
Qed.

Lemma absent_records_zero_onUninstall s sender data :
  absent_records_zero s -> absent_records_zero (external (onUninstall sender data) s).2.
Proof.
  intros Hz. rewrite external_onUninstall.
  destruct (negb _); [exact Hz|]. cbn [snd].
  intros A. rewrite uninstalled_state_accountPKPs.
  destruct (decide (sender = A)); [reflexivity | apply Hz].
Qed.

Lemma absent_records_zero_run_calls cs :
  absent_records_zero (run_calls env cs init_state).
Proof.
  apply (registry_invariant_run_calls absent_records_zero).
  - intros s v H. exact H.
  - intros s account operationHash pkpAddress H. exact H.
  - intros s account target value data H. exact H.
  - apply absent_records_zero_onInstall.
  - apply absent_records_zero_onUninstall.
  - intros A _. reflexivity.
Qed.

Lemma abi_decode_encode_app a b extra :
  0 <= a < 2 ^ 160 -> 0 <= b < 2 ^ 256 ->
  abi_decode_address_bytes32 (abi_encode_address_bytes32 a b ++ extra) = Some (a, b).
Proof.
  intros Ha Hb. unfold abi_decode_address_bytes32, abi_encode_address_bytes32.
  assert (Hlen : (length ((be 32 a ++ be 32 b) ++ extra) <? 64)%nat = false).
  { apply Nat.ltb_ge. rewrite !length_app, !length_be. lia. }
  rewrite Hlen. rewrite <- !app_assoc.
  rewrite take_app_length' by (now rewrite length_be).
  rewrite drop_app_length' by (now rewrite length_be).
  rewrite take_app_length' by (now rewrite length_be).
  rewrite !be_decode_be by (change (2 ^ (8 * Z.of_nat 32)) with (2 ^ 256); lia).
  destruct (2 ^ 160 <=? a) eqn:E; [apply Z.leb_le in E; lia | reflexivity].
Qed.

(** X1.  The install data the script builds, the ABI encoding of
    (pkpEthAddress, pkpTokenId), with or without bytes after it, is read
    back by onInstall as the same pair: from an account without a
    registration and for an unclaimed signer the call succeeds, getPKPInfo
    then answers (pkpEthAddress, pkpTokenId, true), pkpToAccount answers the
    account, isModuleInstalled(account, 2) answers true, and exactly one
    event, ModuleInstalled(account, pkpEthAddress, pkpTokenId), is logged. *)
Theorem install_data_round_trip
    (sender pkp : address) (tokenId : bytes32) (extra : bytes) (s : State) :
  0 <= pkp < 2 ^ 160 -> 0 <= tokenId < 2 ^ 256 ->
  isInstalled (accountPKPs_at s sender) = false ->
  pkpToAccount_at s pkp = 0 ->
  exists s',
    invoke env (OnInstall sender (abi_encode_address_bytes32 pkp tokenId ++ extra)) s
    = (Success [], s') /\
    getPKPInfo sender s' = Ok ((pkp, tokenId, true), s') /\
    pkpToAccount_at s' pkp = sender /\
    isModuleInstalled sender 2 s' = Ok (true, s') /\
    logs s' = logs s ++ [ModuleInstalled sender pkp tokenId] /\
    status s' = status s.
Proof.
  intros Hp Ht Hni Hfree. exists (installed_state s sender pkp tokenId).
  rewrite invoke_onInstall, external_onInstall, abi_decode_encode_app by assumption.
  rewrite Hni, Hfree. cbn [Z.eqb negb fst snd outcome_of].
  assert (Hrec : accountPKPs_at (installed_state s sender pkp tokenId) sender
                 = mkPKPInfo pkp tokenId true).
  { rewrite installed_state_accountPKPs. now rewrite decide_True. }
  repeat split.
  - unfold getPKPInfo. run_M. now rewrite Hrec.
  - rewrite installed_state_pkpToAccount. now rewrite decide_True.
  - unfold isModuleInstalled. cbn [Z.eqb MODULE_TYPE Pos.eqb negb]. run_M. now rewrite Hrec.
Qed.

(** X2.  Install data that is shorter than two 32-byte words, or whose
    first word does not fit an address, makes onInstall revert on decoding,
    before the registration checks: the call fails the same way for an
    account that is already installed, and changes nothing. *)
Theorem malformed_install_data_reverts (sender : address) (data : bytes) (s : State) :
  (length data < 64)%nat \/ 2 ^ 160 <= be_decode (take 32 data) ->
  invoke env (OnInstall sender data) s = (Failure AbiDecodeFailed, s).
Proof.
  intros Hbad. rewrite invoke_onInstall, external_onInstall.
  unfold abi_decode_address_bytes32.
  destruct (length data <? 64)%nat eqn:Hlen; [reflexivity|].
  destruct Hbad as [Hshort|Hwide].
  - apply Nat.ltb_ge in Hlen. lia.
  - apply Z.leb_le in Hwide. now rewrite Hwide.
Qed.

(** X3.  onInstall and onUninstall by an account touch that account's
    record only, and only the reverse entry of the signer address they are
    about: the one named in the install data, or the one the uninstalling
    account had registered.  Every other account's record and every other
    signer's entry read as before, whether the call succeeds or fails. *)
Theorem registry_calls_touch_only_their_own (A : address) (data : bytes) (s : State) :
  (forall X, X <> A ->
     accountPKPs_at (invoke env (OnInstall A data) s).2 X = accountPKPs_at s X) /\
  (forall Y, (forall tokenId, abi_decode_address_bytes32 data <> Some (Y, tokenId)) ->
     pkpToAccount_at (invoke env (OnInstall A data) s).2 Y = pkpToAccount_at s Y) /\
  (forall X, X <> A ->
     accountPKPs_at (invoke env (OnUninstall A data) s).2 X = accountPKPs_at s X) /\
  (forall Y, Y <> pkpEthAddress (accountPKPs_at s A) ->
     pkpToAccount_at (invoke env (OnUninstall A data) s).2 Y = pkpToAccount_at s Y).
Proof.
  rewrite invoke_onInstall, invoke_onUninstall, external_onInstall, external_onUninstall.
  cbn [snd]. split; [|split; [|split]].
  - intros X HX. destruct (abi_decode_address_bytes32 data) as [[pkp tokenId]|]; [|reflexivity].
    destruct (isInstalled _); [reflexivity|]. destruct (negb _); [reflexivity|].
    cbn [snd]. rewrite installed_state_accountPKPs. now rewrite decide_False.
  - intros Y HY. destruct (abi_decode_address_bytes32 data) as [[pkp tokenId]|]; [|reflexivity].
    destruct (isInstalled _); [reflexivity|]. destruct (negb _); [reflexivity|].
    cbn [snd]. rewrite installed_state_pkpToAccount.
    destruct (decide (pkp = Y)) as [->|_]; [|reflexivity].
    now destruct (HY tokenId).
  - intros X HX. destruct (negb _); [reflexivity|].
    cbn [snd]. rewrite uninstalled_state_accountPKPs. now rewrite decide_False.
  - intros Y HY. destruct (negb _); [reflexivity|].
    cbn [snd]. rewrite uninstalled_state_pkpToAccount. rewrite decide_False; congruence.
Qed.

(** X4.  The log tells who is registered.  In every state reached from
    deployment, the record of each account is what its own install and
    uninstall events say, read in order: all zero when there is none or the
    last one is ModuleUninstalled, and otherwise installed with the signer
    address and token id of its last ModuleInstalled event. *)
Theorem registration_is_read_off_the_log (cs : list Call) (A : address) :
  accountPKPs_at (run_calls env cs init_state) A
  = registration_from_log A (logs (run_calls env cs init_state)).
Proof.
  revert A.
  apply (registry_invariant_run_calls
           (fun s => forall A, accountPKPs_at s A = registration_from_log A (logs s))).
  - intros s v H. exact H.
  - intros s account operationHash pkpAddress H A.
    unfold registration_from_log. cbn [logs add_log]. rewrite fold_left_app. apply H.
  - intros s account target value data H A.
    unfold registration_from_log. cbn [logs add_log]. rewrite fold_left_app. apply H.
  - intros s sender data H A. rewrite external_onInstall.
    destruct (abi_decode_address_bytes32 data) as [[pkp tokenId]|]; [|apply H].
    destruct (isInstalled _); [apply H|]. destruct (negb _); [apply H|]. cbn [snd].
    rewrite installed_state_accountPKPs. unfold registration_from_log, installed_state.
    cbn [logs add_log set_pkpToAccount set_accountPKPs]. rewrite fold_left_app.
    cbn [fold_left registration_after].
    destruct (decide (sender = A)); [reflexivity | apply H].
  - intros s sender data H A. rewrite external_onUninstall.
    destruct (negb _); [apply H|]. cbn [snd].
    rewrite uninstalled_state_accountPKPs. unfold registration_from_log, uninstalled_state.
    cbn [logs add_log set_pkpToAccount set_accountPKPs]. rewrite fold_left_app.
    cbn [fold_left registration_after].
    destruct (decide (sender = A)); [reflexivity | apply H].
  - intros A. reflexivity.
Qed.

(** X5.  In every state reached from deployment, an account that is not
    installed has an all-zero record: getPKPInfo answers (0, 0, false) for
    an account that never installed and for one that has uninstalled
    alike. *)
Theorem absent_account_reads_zero (cs : list Call) (A : address) :
  let s := run_calls env cs init_state in
  isInstalled (accountPKPs_at s A) = false ->
  getPKPInfo A s = Ok ((0, 0, false), s).
Proof.
  intros s Hni. unfold getPKPInfo. run_M.
  pose proof (absent_records_zero_run_calls cs A Hni) as Hz. fold s in Hz.
  now rewrite Hz.
Qed.

(** X6.  In a state reached from deployment, a successful install followed
    by the uninstall of the same account brings both mappings back: every
    record and every reverse entry reads as before the install.  The guard
    word is as before and the log has grown by the two events. *)
Theorem install_then_uninstall_restores_registry
    (cs : list Call) (sender : address) (data dataU : bytes)
    (pkp : address) (tokenId : bytes32) (s1 : State) :
  let s := run_calls env cs init_state in
  abi_decode_address_bytes32 data = Some (pkp, tokenId) ->
  invoke env (OnInstall sender data) s = (Success [], s1) ->
  exists s2,
    invoke env (OnUninstall sender dataU) s1 = (Success [], s2) /\
    same_registry s s2 /\
    status s2 = status s /\
    logs s2 = logs s ++ [ModuleInstalled sender pkp tokenId; ModuleUninstalled sender pkp].
Proof.
  intros s Hdec. rewrite invoke_onInstall, external_onInstall, Hdec.
  destruct (isInstalled (accountPKPs_at s sender)) eqn:Hni; [discriminate|].
  destruct (pkpToAccount_at s pkp =? 0) eqn:Hfree; [|discriminate].
  cbn [negb fst snd outcome_of]. intros [= <-]. apply Z.eqb_eq in Hfree.
  assert (Hrec : accountPKPs_at (installed_state s sender pkp tokenId) sender
                 = mkPKPInfo pkp tokenId true).
  { rewrite installed_state_accountPKPs. now rewrite decide_True. }
  exists (uninstalled_state (installed_state s sender pkp tokenId) sender).
  split; [|split; [|split]].
  - rewrite invoke_onUninstall, external_onUninstall, Hrec. reflexivity.
  - split.
    + intros X. rewrite uninstalled_state_accountPKPs.
      destruct (decide (sender = X)) as [<-|HX].
      * symmetry. apply (absent_records_zero_run_calls cs sender Hni).
      * rewrite installed_state_accountPKPs. now rewrite decide_False.
    + intros Y. rewrite uninstalled_state_pkpToAccount, Hrec. cbn [pkpEthAddress].
      destruct (decide (pkp = Y)) as [<-|HY]; [now rewrite Hfree|].
      rewrite installed_state_pkpToAccount. now rewrite decide_False.
  - reflexivity.
  - unfold uninstalled_state. rewrite Hrec. cbn [pkpEthAddress logs add_log].
    unfold installed_state. cbn [logs add_log set_accountPKPs set_pkpToAccount].
    now rewrite <- app_assoc.
Qed.

(** X7.  executeFromExecutor keeps no record of the signatures it has
    accepted.  After a call has succeeded, and as long as the caller's
    registration is the one it was, the same call with the same signature
    passes the guard, the registration check and the signature check again:
    it goes on to the forwarded call, succeeds when that succeeds and fails
    with ExecutionFailed when it fails. *)
Theorem accepted_signature_is_accepted_again
    (sender target : address) (value : uint256) (data pkpSignature : bytes)
    (callee callee' : Action) (returnData : bytes) (s s' : State) :
  invoke env (ExecuteFromExecutor sender target value data pkpSignature callee) s
  = (Success returnData, s') ->
  accountPKPs_at s' sender = accountPKPs_at s sender ->
  invoke env (ExecuteFromExecutor sender target value data pkpSignature callee') s'
  = let '(success, returnData', s1) :=
      run env callee' (before_call env s' sender target value data) in
    if success then (Success returnData', after_call s1 sender target value data)
    else (Failure ExecutionFailed, s').
Proof.
  rewrite !invoke_execute. cbv zeta. rewrite !external_execute. intros Hfirst Hsame.
  destruct (status s =? ENTERED); [discriminate|].
  destruct (isInstalled (accountPKPs_at s sender)) eqn:Hin; [|discriminate].
  cbn [negb] in Hfirst.
  destruct (ECDSA.recover env _ pkpSignature) as [a|e]; [|discriminate].
  destruct (a =? pkpEthAddress (accountPKPs_at s sender)) eqn:Ha; [|discriminate].
  cbn [negb] in Hfirst.
  destruct (run env callee _) as [[ok ret] s1]. destruct ok; [|discriminate].
  cbn [fst snd outcome_of] in Hfirst. injection Hfirst as _ <-.
  change (status (after_call s1 sender target value data) =? ENTERED) with false.
  cbv iota. rewrite Hsame, Hin, Ha. cbn [negb].
  destruct (run env callee' _) as [[ok' ret'] s1']. now destruct ok'.
Qed.

(** The recovery library answers an address only if it is not zero, and
    none of its errors is the guard's. *)
Lemma recover_nonzero hash signature a :
  ECDSA.recover env hash signature = Ok a -> a <> 0.
Proof.
  unfold ECDSA.recover. destruct (_ =? 65)%nat; [|discriminate].
  destruct (ECDSA.HALF_ORDER <? _); [discriminate|].
  destruct (ecrecover env _ _ _ _ =? 0) eqn:E; [discriminate|].
  intros [= <-]. now apply Z.eqb_neq.
Qed.

Lemma recover_error_not_guard hash signature e :
  ECDSA.recover env hash signature = Revert e -> e <> ReentrancyGuardReentrantCall.
Proof.
  unfold ECDSA.recover.
  destruct (_ =? 65)%nat; [|intros [= <-]; discriminate].
  destruct (ECDSA.HALF_ORDER <? _); [intros [= <-]; discriminate|].
  destruct (ecrecover env _ _ _ _ =? 0); [intros [= <-]; discriminate | discriminate].
Qed.

(** X8.  executeFromExecutor succeeds only for a verified operation: if the
    call succeeds, the caller is installed, the signature recovers, over the
    prefixed hash of what getOperationHash answers for (caller, target,
    value, data), to the caller's registered signer, which is not the zero
    address; the forwarded call has succeeded, its return data is what the
    call returns, and the call leaves the guard released. *)
Theorem success_means_verified
    (sender target : address) (value : uint256) (data pkpSignature : bytes)
    (callee : Action) (returnData : bytes) (s s' : State) :
  invoke env (ExecuteFromExecutor sender target value data pkpSignature callee) s
  = (Success returnData, s') ->
  exists operationHash signer s1,
    getOperationHash env sender target value data s = Ok (operationHash, s) /\
    isInstalled (accountPKPs_at s sender) = true /\
    ECDSA.recover env (keccak256 env (encodePacked_prefixed operationHash)) pkpSignature
    = Ok signer /\
    signer = pkpEthAddress (accountPKPs_at s sender) /\
    signer <> 0 /\
    run env callee (before_call env s sender target value data) = (true, returnData, s1) /\
    s' = after_call s1 sender target value data /\
    status s' = NOT_ENTERED.
Proof.
  rewrite invoke_execute. cbv zeta. rewrite external_execute.
  destruct (status s =? ENTERED); [discriminate|].
  destruct (isInstalled (accountPKPs_at s sender)) eqn:Hin; [|discriminate].
  cbn [negb]. unfold digest_of.
  destruct (ECDSA.recover env _ pkpSignature) as [a|e] eqn:Hrec; [|discriminate].
  destruct (a =? pkpEthAddress (accountPKPs_at s sender)) eqn:Ha; [|discriminate].
  cbn [negb]. destruct (run env callee _) as [[ok ret] s1]. destruct ok; [|discriminate].
  cbn [fst snd outcome_of]. intros [= <- <-].
  exists (operationHash_of env sender target value data), a, s1.
  apply Z.eqb_eq in Ha. pose proof (recover_nonzero _ _ _ Hrec) as Hnz.
  repeat split; auto.
Qed.

(** X9.  onInstall accepts the zero address as signer address, and an
    account registered with it can never execute: whatever the target,
    value, data, signature and callee, executeFromExecutor fails and leaves
    the state as it is, because recovery never answers the zero address. *)
Theorem zero_signer_never_executes
    (sender target : address) (value : uint256) (data pkpSignature : bytes)
    (callee : Action) (s : State) :
  isInstalled (accountPKPs_at s sender) = true ->
  pkpEthAddress (accountPKPs_at s sender) = 0 ->
  exists e,
    invoke env (ExecuteFromExecutor sender target value data pkpSignature callee) s
    = (Failure e, s).
Proof.
  intros Hin Hzero. rewrite invoke_execute. cbv zeta. rewrite external_execute.
  destruct (status s =? ENTERED); [eauto|]. rewrite Hin. cbn [negb].
  destruct (ECDSA.recover env _ pkpSignature) as [a|e] eqn:Hrec; [|eauto].
  apply recover_nonzero in Hrec. rewrite Hzero.
  apply Z.eqb_neq in Hrec. rewrite Hrec. cbn [negb]. eauto.
Qed.

(** ** The order of events in the log *)

Lemma split_snoc (l before after : list Event) (e x : Event) :
  l ++ [e] = before ++ x :: after ->
  (after = [] /\ before = l /\ x = e) \/
  (exists after', after = after' ++ [e] /\ l = before ++ x :: after').
Proof.
  destruct after as [|y after] using rev_ind.
  - intros E. apply app_inj_tail in E as [-> ->]. now left.
  - intros E. clear IHafter. right. exists after.
    change (before ++ x :: after ++ [y]) with (before ++ (x :: after) ++ [y]) in E.
    rewrite app_assoc in E. apply app_inj_tail in E as [-> ->]. auto.
Qed.

Lemma verified_before_executed_snoc_other l e :
  verified_before_executed env l ->
  (forall account target value data, e <> OperationExecuted account target value data) ->
  verified_before_executed env (l ++ [e]).
Proof.
  intros Hl He before after account target value data E.
  apply split_snoc in E as [(_ & _ & Hx)|(after' & _ & E)].
  - now destruct (He account target value data).
  - exact (Hl _ _ _ _ _ _ E).
Qed.

Lemma verified_before_executed_snoc_executed l account target value data pkpAddress :
  verified_before_executed env l ->
  In (PKPSignatureVerified account (operationHash_of env account target value data)
        pkpAddress) l ->
  verified_before_executed env (l ++ [OperationExecuted account target value data]).
Proof.
  intros Hl Hin before after account' target' value' data' E.
  apply split_snoc in E as [(_ & -> & [= -> -> -> ->])|(after' & _ & E)].
  - eauto.
  - exact (Hl _ _ _ _ _ _ E).
Qed.

Lemma verified_before_executed_onInstall sender data s :
  verified_before_executed env (logs s) ->
  verified_before_executed env (logs (external (onInstall sender data) s).2).
Proof.
  intros Hl. rewrite external_onInstall.
  destruct (abi_decode_address_bytes32 data) as [[pkp tokenId]|]; [|exact Hl].
  destruct (isInstalled _); [exact Hl|]. destruct (negb _); [exact Hl|].
  apply verified_before_executed_snoc_other; [exact Hl | discriminate].
Qed.

Lemma verified_before_executed_onUninstall sender data s :
  verified_before_executed env (logs s) ->
  verified_before_executed env (logs (external (onUninstall sender data) s).2).
Proof.
  intros Hl. rewrite external_onUninstall. destruct (negb _); [exact Hl|].
  apply verified_before_executed_snoc_other; [exact Hl | discriminate].
Qed.

(** A successful executeFromExecutor, given that the callee keeps the
    order of the log. *)
Lemma verified_before_executed_execute sender target value data callee returnData s s1 :
  verified_before_executed env (logs s) ->
  run env callee (before_call env s sender target value data) = (true, returnData, s1) ->
  (verified_before_executed env (logs (before_call env s sender target value data)) ->
   verified_before_executed env (logs s1)) ->
  verified_before_executed env (logs (after_call s1 sender target value data)).
Proof.
  intros Hl Hrun Hcallee.
  assert (Hb : verified_before_executed env
                 (logs (before_call env s sender target value data))).
  { apply verified_before_executed_snoc_other; [exact Hl | discriminate]. }
  destruct (registration_kept_run env 0 callee
              (before_call env s sender target value data)) as (new & Hnew & _).
  rewrite Hrun in Hnew. cbn [snd] in Hnew.
  apply (verified_before_executed_snoc_executed (logs s1) sender target value data
           (pkpEthAddress (accountPKPs_at s sender))); [now apply Hcallee|].
  rewrite Hnew. apply in_or_app. left. apply in_or_app. right. now left.
Qed.

Lemma verified_before_executed_run a : forall s,
  verified_before_executed env (logs s) ->
  verified_before_executed env (logs (run env a s).2).
Proof.
  induction a as [ok ret|sender data k IH|sender data k IH
                 |sender target value data sig callee IHc k IH|k IH|body IHb k IH];
    intros s Hl.
  - exact Hl.
  - rewrite run_CallOnInstall. now apply IH, verified_before_executed_onInstall.
  - rewrite run_CallOnUninstall. now apply IH, verified_before_executed_onUninstall.
  - rewrite run_CallExecute. cbv zeta.
    destruct (external_execute_cases env callee sender target value data sig s)
      as [[e ->]|(ret & s1 & _ & _ & Hrun & ->)]; apply IH; [exact Hl|].
    cbn [snd]. apply (verified_before_executed_execute _ _ _ _ callee ret s); auto.
    intros Hb. specialize (IHc _ Hb). now rewrite Hrun in IHc.
  - cbn [run]. now apply IH.
  - rewrite run_Subcall. cbv zeta. apply IH.
    specialize (IHb s Hl). destruct (run env body s).1.1; assumption.
Qed.

Lemma verified_before_executed_invoke c s :
  verified_before_executed env (logs s) ->
  verified_before_executed env (logs (invoke env c s).2).
Proof.
  intros Hl. destruct c as [sender data|sender data|sender target value data sig callee].
  - rewrite invoke_onInstall. now apply verified_before_executed_onInstall.
  - rewrite invoke_onUninstall. now apply verified_before_executed_onUninstall.
  - rewrite invoke_execute. cbv zeta.
    destruct (external_execute_cases env callee sender target value data sig s)
      as [[e ->]|(ret & s1 & _ & _ & Hrun & ->)]; [exact Hl|].
    cbn [snd]. apply (verified_before_executed_execute _ _ _ _ callee ret s); auto.
    intros Hb. pose proof (verified_before_executed_run callee _ Hb) as Hc.
    now rewrite Hrun in Hc.
Qed.

(** X10.  In the log of every state reached from deployment, each
    OperationExecuted(account, target, value, data) comes after a
    PKPSignatureVerified for the same account whose hash is the operation
    hash of that account, target, value and data: no operation is logged as
    executed that was not logged as verified first, whatever the forwarded
    calls do. *)
Theorem executed_only_after_verified (cs : list Call) :
  verified_before_executed env (logs (run_calls env cs init_state)).
Proof.
  induction cs as [|c cs IH] using rev_ind.
  - intros before after account target value data E. now destruct before.
  - rewrite run_calls_snoc. now apply verified_before_executed_invoke.
Qed.

(** X11.  After any sequence of calls the guard is released, also after
    calls whose forwarded call failed or tried to re-enter; so a call that
    arrives from outside never fails with the guard's error. *)
Theorem guard_released_between_calls (cs : list Call) (c : Call) :
  status (run_calls env cs init_state) = NOT_ENTERED /\
  (invoke env c (run_calls env cs init_state)).1 <> Failure ReentrancyGuardReentrantCall.
Proof.
  pose proof (run_calls_status env cs) as Hst. split; [exact Hst|].
  set (s := run_calls env cs init_state) in *.
  destruct c as [sender data|sender data|sender target value data sig callee].
  - rewrite invoke_onInstall, external_onInstall.
    destruct (abi_decode_address_bytes32 data) as [[pkp tokenId]|]; [|discriminate].
    destruct (isInstalled _); [discriminate|]. destruct (negb _); discriminate.
  - rewrite invoke_onUninstall, external_onUninstall. destruct (negb _); discriminate.
  - rewrite invoke_execute. cbv zeta. rewrite external_execute, Hst.
    change (NOT_ENTERED =? ENTERED) with false. cbv iota.
    destruct (negb (isInstalled _)); [discriminate|].
    destruct (ECDSA.recover env _ sig) as [a|e] eqn:Hrec.
    + destruct (negb _); [discriminate|].
      destruct (run env callee _) as [[ok ret] s1]. destruct ok; discriminate.
    + cbn. intros [= ->]. now apply recover_error_not_guard in Hrec.
Qed.

(** X12.  The packed encoding that is hashed and signed tells chains and
    module instances apart as well: two encodings are equal only when
    account, target, value, data, chain id and module address are all
    equal. *)
Theorem encoding_separates_chains_and_modules
    (account target : address) (value : uint256) (data : bytes)
    (chain : uint256) (module : address)
    (account' target' : address) (value' : uint256) (data' : bytes)
    (chain' : uint256) (module' : address) :
  0 <= account < 2 ^ 160 -> 0 <= target < 2 ^ 160 -> 0 <= value < 2 ^ 256 ->
  0 <= chain < 2 ^ 256 -> 0 <= module < 2 ^ 160 ->
  0 <= account' < 2 ^ 160 -> 0 <= target' < 2 ^ 160 -> 0 <= value' < 2 ^ 256 ->
  0 <= chain' < 2 ^ 256 -> 0 <= module' < 2 ^ 160 ->
  encodePacked_operation account target value data chain module
  = encodePacked_operation account' target' value' data' chain' module' ->
  account = account' /\ target = target' /\ value = value' /\ data = data' /\
  chain = chain' /\ module = module'.
Proof.
  intros Ha Ht Hv Hc Hm Ha' Ht' Hv' Hc' Hm'. unfold encodePacked_operation. intros E.
  apply app_split_same_length in E as [Ea E]; [|now rewrite !length_be].
  apply app_split_same_length in E as [Et E]; [|now rewrite !length_be].
  apply app_split_same_length in E as [Ev E]; [|now rewrite !length_be].
  apply app_split_same_tail in E as [Ed E]; [|now rewrite !length_app, !length_be].
  apply app_split_same_length in E as [Ec Em]; [|now rewrite !length_be].
  repeat split.
  - now apply (be_inj 20).
  - now apply (be_inj 20).
  - now apply (be_inj 32).
  - exact Ed.
  - now apply (be_inj 32).
  - now apply (be_inj 20).
Qed.

End MoreProperties.

(** * Properties of the signer's side *)

Module SignerFacts.
Import Stdlib.Strings.Ascii Stdlib.Strings.String.
Import Signer.
Local Open Scope string_scope.

Lemma length_append (a b : string) : length (a ++ b) = (length a + length b)%nat.
Proof. induction a as [|c a IH]; [reflexivity | simpl; f_equal; exact IH]. Qed.

Lemma startsWith0x_true str : startsWith0x str = true -> str = "0x" ++ slice 2 str.
Proof.
  unfold startsWith0x. intros H. apply prefix_correct in H.
  destruct str as [|c1 [|c2 rest]]; try discriminate H.
  cbn in H. injection H as -> -> _. reflexivity.
Qed.

(** Both functions put the prefix on [r] once and take it off [s]. *)
Lemma with_prefix str :
  (if startsWith0x str then str else "0x" ++ str) = "0x" ++ digits str.
Proof.
  unfold digits. destruct (startsWith0x str) eqn:E; [|reflexivity].
  now apply startsWith0x_true.
Qed.

Lemma without_prefix str :
  slice 2 (if startsWith0x str then str else "0x" ++ str) = digits str.
Proof. unfold digits. now destruct (startsWith0x str). Qed.

Lemma formatPKPSignature_shape (signingResult : SigningResult) :
  (recid signingResult <= 1)%N ->
  formatPKPSignature signingResult
  = "0x" ++ digits (r signingResult) ++ digits (s signingResult)
      ++ (if (recid signingResult =? 0)%N then "1b" else "1c").
Proof.
  intros Hrec. unfold formatPKPSignature. cbv zeta. rewrite with_prefix, without_prefix.
  assert (Hv : recid signingResult = 0%N \/ recid signingResult = 1%N) by lia.
  destruct Hv as [-> | ->]; reflexivity.
Qed.

Lemma combineSignatureShares_shape (signatureShare : SigningResult) :
  (recid signatureShare <= 1)%N ->
  combineSignatureShares signatureShare
  = "0x" ++ digits (r signatureShare) ++ digits (s signatureShare)
      ++ (if (recid signatureShare =? 0)%N then "027" else "028").
Proof.
  intros Hrec. unfold combineSignatureShares. cbv zeta. rewrite with_prefix, without_prefix.
  assert (Hv : recid signatureShare = 0%N \/ recid signatureShare = 1%N) by lia.
  destruct Hv as [-> | ->]; reflexivity.
Qed.

Lemma length_signature (a b v : string) :
  length a = 64%nat -> length b = 64%nat ->
  length ("0x" ++ a ++ b ++ v) = (130 + length v)%nat.
Proof.
  intros Ha Hb. change ("0x" ++ ?x) with (String "0" (String "x" x)). cbn [length].
  rewrite !length_append, Ha, Hb. lia.
Qed.

(** X13.  formatPKPSignature, given r and s of 64 hexadecimal digits each,
    with or without the 0x prefix, and a recovery id of 0 or 1, returns 0x
    followed by the digits of r, the digits of s and the two digits 1b or
    1c: 132 characters, the 65 bytes of an Ethereum signature with v = 27
    or 28. *)
Theorem formatPKPSignature_is_65_bytes (signingResult : SigningResult) :
  (recid signingResult <= 1)%N ->
  length (digits (r signingResult)) = 64%nat ->
  length (digits (s signingResult)) = 64%nat ->
  formatPKPSignature signingResult
  = "0x" ++ digits (r signingResult) ++ digits (s signingResult)
      ++ (if (recid signingResult =? 0)%N then "1b" else "1c") /\
  length (formatPKPSignature signingResult) = 132%nat.
Proof.
  intros Hrec Hr Hs. split; [now apply formatPKPSignature_shape|].
  rewrite formatPKPSignature_shape, length_signature by assumption.
  now destruct (recid signingResult =? 0)%N.
Qed.

(** X14.  combineSignatureShares, on the same inputs, ends the string with
    the decimal digits of v after a 0, that is with 027 or 028: 133
    characters, an odd number of hexadecimal digits, and never the string
    formatPKPSignature returns. *)
Theorem combineSignatureShares_is_not_65_bytes (signatureShare : SigningResult) :
  (recid signatureShare <= 1)%N ->
  length (digits (r signatureShare)) = 64%nat ->
  length (digits (s signatureShare)) = 64%nat ->
  combineSignatureShares signatureShare
  = "0x" ++ digits (r signatureShare) ++ digits (s signatureShare)
      ++ (if (recid signatureShare =? 0)%N then "027" else "028") /\
  length (combineSignatureShares signatureShare) = 133%nat /\
  combineSignatureShares signatureShare <> formatPKPSignature signatureShare.
Proof.
  intros Hrec Hr Hs.
  assert (L : length (combineSignatureShares signatureShare) = 133%nat).
  { rewrite combineSignatureShares_shape, length_signature by assumption.
    now destruct (recid signatureShare =? 0)%N. }
  split; [now apply combineSignatureShares_shape|]. split; [exact L|].
  intros Heq. rewrite Heq in L.
  rewrite formatPKPSignature_shape, length_signature in L by assumption.
  destruct (recid signatureShare =? 0)%N; discriminate L.
Qed.

End SignerFacts.

(** * Who can change a registration *)

Section Authority.

Variable env : Env.

Lemma other_onInstall_keeps_record A sender data s :
  sender <> A ->
  accountPKPs_at (external (onInstall sender data) s).2 A = accountPKPs_at s A.
Proof.
  intros Hne. rewrite external_onInstall.
  destruct (abi_decode_address_bytes32 data) as [[pkp tokenId]|]; [|reflexivity].
  destruct (isInstalled _); [reflexivity|]. destruct (negb _); [reflexivity|].
  cbn [snd]. rewrite installed_state_accountPKPs. now rewrite decide_False.
Qed.

Lemma other_onUninstall_keeps_record A sender data s :
  sender <> A ->
  accountPKPs_at (external (onUninstall sender data) s).2 A = accountPKPs_at s A.
Proof.
  intros Hne. rewrite external_onUninstall. destruct (negb _); [reflexivity|].
  cbn [snd]. rewrite uninstalled_state_accountPKPs. now rewrite decide_False.
Qed.

Lemma run_keeps_record A a :
  no_registry_call_as A a ->
  forall s, accountPKPs_at (run env a s).2 A = accountPKPs_at s A.
Proof.
  induction 1 as [ok ret|sender data k Hs _ IH|sender data k Hs _ IH
                 |sender target value data sig callee k _ IHc _ IH|k _ IH|body k _ IHb _ IH];
    intros s.
  - reflexivity.
  - rewrite run_CallOnInstall, IH. now apply other_onInstall_keeps_record.
  - rewrite run_CallOnUninstall, IH. now apply other_onUninstall_keeps_record.
  - rewrite run_CallExecute. cbv zeta. rewrite IH.
    destruct (external_execute_cases env callee sender target value data sig s)
      as [[e ->]|(ret & s1 & _ & _ & Hrun & ->)]; [reflexivity|].
    cbn [snd]. specialize (IHc (before_call env s sender target value data)).
    rewrite Hrun in IHc. exact IHc.
  - cbn [run]. apply IH.
  - rewrite run_Subcall. cbv zeta. rewrite IH.
    specialize (IHb s). destruct (run env body s).1.1; [exact IHb | reflexivity].
Qed.

Lemma invoke_keeps_record A c s :
  not_registry_call_as A c ->
  accountPKPs_at (invoke env c s).2 A = accountPKPs_at s A.
Proof.
  destruct c as [sender data|sender data|sender target value data sig callee];
    cbn [not_registry_call_as]; intros Hc.
  - rewrite invoke_onInstall. now apply other_onInstall_keeps_record.
  - rewrite invoke_onUninstall. now apply other_onUninstall_keeps_record.
  - rewrite invoke_execute. cbv zeta.
    destruct (external_execute_cases env callee sender target value data sig s)
      as [[e ->]|(ret & s1 & _ & _ & Hrun & ->)]; [reflexivity|].
    cbn [snd].
    pose proof (run_keeps_record A callee Hc
                  (before_call env s sender target value data)) as H.
    rewrite Hrun in H. exact H.
Qed.

(** X15.  Only an account itself changes its registration.  Through any
    sequence of calls in which no onInstall and no onUninstall is made with
    msg.sender = A, at top level or from inside a forwarded call, the record
    of A stays exactly as it was; calls of executeFromExecutor, by A or by
    anyone, do not touch it. *)
Theorem only_the_account_changes_its_record (A : address) (cs : list Call) (s : State) :
  Forall (not_registry_call_as A) cs ->
  accountPKPs_at (run_calls env cs s) A = accountPKPs_at s A.
Proof.
  induction cs as [|c cs IH] using rev_ind; intros Hcs; [reflexivity|].
  apply Forall_app in Hcs as [Hcs Hc]. rewrite run_calls_snoc.
  rewrite invoke_keeps_record by (now inversion Hc). now apply IH.
Qed.

End Authority.

(** * More properties on the demonstration chain *)

Ltac in_range := vm_compute; split; discriminate || reflexivity.

(** X1 on the demonstration chain: alice installs with data that carries
    one byte too many. *)
Lemma install_data_round_trip_witness :
  exists s',
    invoke Demo.env
      (OnInstall Demo.alice (abi_encode_address_bytes32 Demo.pkp 7 ++ [x01])) init_state
    = (Success [], s') /\
    getPKPInfo Demo.alice s' = Ok ((Demo.pkp, 7, true), s') /\
    pkpToAccount_at s' Demo.pkp = Demo.alice.
Proof.
  destruct (install_data_round_trip Demo.env Demo.alice Demo.pkp 7 [x01] init_state)
    as (s' & Hcall & Hinfo & Hrev & _); [in_range | in_range | concrete | concrete |].
  exists s'. auto.
Defined.

(** X2 on the demonstration chain: alice, installed, sends empty install data. *)
Lemma malformed_install_data_reverts_witness :
  invoke Demo.env (OnInstall Demo.alice []) Demo.alice_installed
  = (Failure AbiDecodeFailed, Demo.alice_installed).
Proof.
  apply (malformed_install_data_reverts Demo.env Demo.alice [] Demo.alice_installed).
  left. cbn [length]. lia.
Defined.

(** X3 on the demonstration chain: bob's install leaves alice's record. *)
Lemma registry_calls_touch_only_their_own_witness :
  accountPKPs_at
    (invoke Demo.env (OnInstall Demo.bob (abi_encode_address_bytes32 Demo.other_pkp 9))
       Demo.alice_installed).2 Demo.alice
  = accountPKPs_at Demo.alice_installed Demo.alice.
Proof.
  apply (proj1 (registry_calls_touch_only_their_own Demo.env Demo.bob
                  (abi_encode_address_bytes32 Demo.other_pkp 9) Demo.alice_installed)).
  vm_compute. discriminate.
Defined.

(** X5 on the demonstration chain: bob never installed. *)
Lemma absent_account_reads_zero_witness :
  getPKPInfo Demo.bob Demo.alice_installed = Ok ((0, 0, false), Demo.alice_installed).
Proof.
  apply (absent_account_reads_zero Demo.env
           [OnInstall Demo.alice (abi_encode_address_bytes32 Demo.pkp 7)] Demo.bob).
  concrete.
Defined.

(** X6 on the demonstration chain: alice installs and uninstalls. *)
Lemma install_then_uninstall_restores_registry_witness :
  exists s2,
    invoke Demo.env (OnUninstall Demo.alice []) Demo.alice_installed = (Success [], s2) /\
    same_registry init_state s2.
Proof.
  destruct (install_then_uninstall_restores_registry Demo.env [] Demo.alice
              (abi_encode_address_bytes32 Demo.pkp 7) [] Demo.pkp 7 Demo.alice_installed)
    as (s2 & Hun & Hsame & _); [concrete | concrete |].
  exists s2. auto.
Defined.

(** X7 on the demonstration chain: alice's call, made twice with one signature. *)
Lemma accepted_signature_is_accepted_again_witness :
  let call :=
    ExecuteFromExecutor Demo.alice Demo.target 0 [] Demo.good_signature (Return true []) in
  (invoke Demo.env call (invoke Demo.env call Demo.alice_installed).2).1 = Success [].
Proof.
  cbv zeta.
  rewrite (accepted_signature_is_accepted_again Demo.env Demo.alice Demo.target 0 []
             Demo.good_signature (Return true []) (Return true []) []
             Demo.alice_installed
             (invoke Demo.env
                (ExecuteFromExecutor Demo.alice Demo.target 0 [] Demo.good_signature
                   (Return true [])) Demo.alice_installed).2);
    concrete.
Defined.

(** X8 on the demonstration chain: alice's successful call was verified
    against her registered signer. *)
Lemma success_means_verified_witness :
  exists operationHash signer,
    ECDSA.recover Demo.env (keccak256 Demo.env (encodePacked_prefixed operationHash))
      Demo.good_signature = Ok signer /\
    signer = pkpEthAddress (accountPKPs_at Demo.alice_installed Demo.alice) /\
    signer <> 0.
Proof.
  destruct (success_means_verified Demo.env Demo.alice Demo.target 0 []
              Demo.good_signature (Return true []) []
              Demo.alice_installed
              (invoke Demo.env
                 (ExecuteFromExecutor Demo.alice Demo.target 0 [] Demo.good_signature
                    (Return true [])) Demo.alice_installed).2)
    as (h & signer & s1 & _ & _ & Hrec & Hsigner & Hnz & _); [concrete|].
  exists h, signer. auto.
Defined.

(** X9 on the demonstration chain: alice installs with the zero address as
    signer and then cannot execute. *)
Lemma zero_signer_never_executes_witness :
  let s := run_calls Demo.env
             [OnInstall Demo.alice (abi_encode_address_bytes32 0 7)] init_state in
  isInstalled (accountPKPs_at s Demo.alice) = true /\
  exists e,
    invoke Demo.env
      (ExecuteFromExecutor Demo.alice Demo.target 0 [] Demo.good_signature (Return true []))
      s = (Failure e, s).
Proof.
  cbv zeta. split; [concrete|].
  apply (zero_signer_never_executes Demo.env); concrete.
Defined.

(** X12 on the demonstration chain: the same operation on two chains. *)
Lemma encoding_separates_chains_and_modules_witness :
  encodePacked_operation Demo.alice Demo.target 0 [] 84532 (this Demo.env)
  <> encodePacked_operation Demo.alice Demo.target 0 [] 1 (this Demo.env).
Proof.
  assert (Ha : 0 <= Demo.alice < 2 ^ 160) by in_range.
  assert (Ht : 0 <= Demo.target < 2 ^ 160) by in_range.
  assert (Hv : 0 <= 0 < 2 ^ 256) by in_range.
  assert (Hc : 0 <= 84532 < 2 ^ 256) by in_range.
  assert (Hc' : 0 <= 1 < 2 ^ 256) by in_range.
  assert (Hm : 0 <= this Demo.env < 2 ^ 160) by in_range.
  intros E.
  destruct (encoding_separates_chains_and_modules
              Demo.alice Demo.target 0 [] 84532 (this Demo.env)
              Demo.alice Demo.target 0 [] 1 (this Demo.env)
              Ha Ht Hv Hc Hm Ha Ht Hv Hc' Hm E) as (_ & _ & _ & _ & Hchain & _).
  discriminate Hchain.
Defined.

(** X15 on the demonstration chain: bob installs, and alice runs a call
    whose target uninstalls as bob; alice's record stays. *)
Lemma only_the_account_changes_its_record_witness :
  accountPKPs_at
    (run_calls Demo.env
       [OnInstall Demo.bob (abi_encode_address_bytes32 Demo.other_pkp 9);
        ExecuteFromExecutor Demo.alice Demo.target 0 [] Demo.good_signature
          (CallOnUninstall Demo.bob [] (fun _ => Return true []))]
       Demo.alice_installed) Demo.alice
  = accountPKPs_at Demo.alice_installed Demo.alice.
Proof.
  apply (only_the_account_changes_its_record Demo.env Demo.alice).
  constructor; [vm_compute; discriminate|].
  constructor; [|constructor].
  apply nrc_CallOnUninstall; [vm_compute; discriminate|].
  intros r. constructor.
Defined.

(** X13 and X14 on a signature of the signing network. *)
Module SignerDemo.
Import Stdlib.Strings.String.
Local Open Scope string_scope.

Lemma formatPKPSignature_is_65_bytes_witness :
  length
    (Signer.formatPKPSignature
       (Signer.mkSigningResult
          "0x1111111111111111111111111111111111111111111111111111111111111111"
          "2222222222222222222222222222222222222222222222222222222222222222" 1))
  = 132%nat.
Proof.
  apply (SignerFacts.formatPKPSignature_is_65_bytes
           (Signer.mkSigningResult
              "0x1111111111111111111111111111111111111111111111111111111111111111"
              "2222222222222222222222222222222222222222222222222222222222222222" 1));
    vm_compute; reflexivity || discriminate.
Defined.

Lemma combineSignatureShares_is_not_65_bytes_witness :
  length
    (Signer.combineSignatureShares
       (Signer.mkSigningResult
          "0x1111111111111111111111111111111111111111111111111111111111111111"
          "2222222222222222222222222222222222222222222222222222222222222222" 1))
  = 133%nat.
Proof.
  apply (SignerFacts.combineSignatureShares_is_not_65_bytes
           (Signer.mkSigningResult
              "0x1111111111111111111111111111111111111111111111111111111111111111"
              "2222222222222222222222222222222222222222222222222222222222222222" 1));
    vm_compute; reflexivity || discriminate.
Defined.

End SignerDemo.
